(** * Forest_Fire.py: the FWI predictor page

    A shallow embedding of [Forest_Fire.py], the Streamlit script that loads
    a fitted scaler and a fitted ridge model, reads one record from the form
    or a table from an uploaded CSV file, and shows the predicted Fire
    Weather Index.

    The script is re-run from top to bottom on every interaction.  One run is
    modelled as a computation in a small writer/exception monad: it emits the
    page elements and the calls made to the two artifacts, in program order,
    and either returns or ends in an exception nobody caught.  The values
    the widgets return in that run are the run's inputs.  [script] is the
    page from [st.set_page_config] on, for artifacts that are loaded;
    [program] puts the two loads of the first lines before it. *)

From Stdlib Require Import ZArith QArith List String Ascii Bool Lia Lqa.
From Stdlib Require Import Floats.SpecFloat Numbers.DecimalString DecimalN Qabs.
Import ListNotations.

Open Scope string_scope.
Open Scope Z_scope.

(** ** Python floats *)

Module PyFloat.

(** A Python [float] (and a numpy [float64]) is an IEEE 754 binary64. *)
Definition float : Set := spec_float.

Definition prec : Z := 53.
Definition emax : Z := 1024.

(** [float(z)] for a Python int [z]; also what [np.array] does to an int
    that sits in a list with floats. *)
Definition of_Z (z : Z) : float :=
  match z with
  | Zneg p => SFopp (binary_normalize prec emax (Zpos p) 0 false)
  | _ => binary_normalize prec emax z 0 false
  end.

(** The number a finite float stands for, as a fraction. *)
Definition magnitude (m : positive) (e : Z) : Z * positive :=
  if 0 <=? e then (Zpos m * 2 ^ e, 1%positive)
  else (Zpos m, Z.to_pos (2 ^ (- e))).

Definition exact_value (v : float) : option Q :=
  match v with
  | S754_zero _ => Some (0 # 1)
  | S754_finite s m e =>
      let '(n, d) := magnitude m e in
      Some ((if s then - n else n) # d)
  | S754_infinity _ | S754_nan => None
  end.

(** Nearest integer to [n / d], ties to the even one ([0 <= n]). *)
Definition round_half_even (n : Z) (d : positive) : Z :=
  let q := n / Zpos d in
  let r := n mod Zpos d in
  match 2 * r ?= Zpos d with
  | Lt => q
  | Gt => q + 1
  | Eq => if Z.even q then q else q + 1
  end.

Definition digit (d : Z) : ascii := ascii_of_nat (48 + Z.to_nat d).

Definition str_N (n : N) : string := NilEmpty.string_of_uint (N.to_uint n).

(** [h] hundredths printed with two decimals, with its sign. *)
Definition fixed2 (neg : bool) (h : Z) : string :=
  (if neg then "-" else "") ++ str_N (Z.to_N (h / 100)) ++ "."
    ++ String (digit (h mod 100 / 10)) (String (digit (h mod 10)) "").

(** The absolute value in hundredths, correctly rounded. *)
Definition hundredths (m : positive) (e : Z) : Z :=
  let '(n, d) := magnitude m e in round_half_even (100 * n) d.

(** [f"{v:.2f}"] *)
Definition format_2f (v : float) : string :=
  match v with
  | S754_nan => "nan"
  | S754_infinity s => if s then "-inf" else "inf"
  | S754_zero s => fixed2 s 0
  | S754_finite s m e => fixed2 s (hundredths m e)
  end.

Definition is_finite (v : float) : bool :=
  match v with
  | S754_zero _ | S754_finite _ _ _ => true
  | _ => false
  end.

End PyFloat.

Definition float : Set := PyFloat.float.

(** ** Strings *)

Definition nl : string := String (ascii_of_nat 10) "".

(** [sub in s] *)
Definition contains (s sub : string) : Prop :=
  exists pre post, s = pre ++ sub ++ post.

(** [sub] at the start of [s]. *)
Definition starts_with (s sub : string) : Prop :=
  exists post, s = sub ++ post.

Definition is_digit (c : ascii) : bool :=
  let n := nat_of_ascii c in (48 <=? n)%nat && (n <=? 57)%nat.

(** What follows the first ["."] of [s]. *)
Fixpoint after_point (s : string) : option string :=
  match s with
  | "" => None
  | String c r => if Ascii.eqb c "." then Some r else after_point r
  end.

Fixpoint all_digits (s : string) : bool :=
  match s with
  | "" => true
  | String c r => is_digit c && all_digits r
  end.

(** What precedes the first ["."] of [s]. *)
Fixpoint before_point (s : string) : string :=
  match s with
  | "" => ""
  | String c r => if Ascii.eqb c "." then "" else String c (before_point r)
  end.

Definition digit_value (c : ascii) : option Z :=
  if is_digit c then Some (Z.of_nat (nat_of_ascii c) - 48) else None.

(** The number of hundredths written as digits, a point and two digits. *)
Definition read_hundredths (s : string) : option Z :=
  match NilEmpty.uint_of_string (before_point s), after_point s with
  | Some d, Some (String c1 (String c2 "")) =>
      match digit_value c1, digit_value c2 with
      | Some a, Some b => Some (Z.of_N (N.of_uint d) * 100 + a * 10 + b)
      | _, _ => None
      end
  | _, _ => None
  end.

(** The number a string with two decimals stands for. *)
Definition read_fixed2 (s : string) : option Q :=
  match s with
  | String c r =>
      if Ascii.eqb c "-"
      then option_map (fun h => (- h) # 100) (read_hundredths r)
      else option_map (fun h => h # 100) (read_hundredths s)
  | "" => None
  end.

(** A string that ends in a point and two digits. *)
Definition two_decimals (s : string) : Prop :=
  exists c1 c2,
    after_point s = Some (String c1 (String c2 "")) /\
    is_digit c1 = true /\ is_digit c2 = true.

(** ** Exceptions *)

(** The classes the calls of this script raise; all derive from
    [Exception].  [UnicodeDecodeError] derives from [ValueError];
    [FileNotFoundError] and [UnpicklingError] are what opening and
    unpickling a file raise. *)
Inductive exn_class :=
| ValueError | UnicodeDecodeError | TypeError | KeyError | IndexError
| AttributeError | MemoryError | FileNotFoundError | UnpicklingError.

Record exn := mk_exn { exn_cls : exn_class; exn_str : string }.

(** [isinstance(e, ValueError)], the test of [except ValueError]. *)
Definition isinstance_ValueError (e : exn) : bool :=
  match exn_cls e with
  | ValueError | UnicodeDecodeError => true
  | _ => false
  end.

(** [isinstance(e, Exception)], the test of [except Exception]. *)
Definition isinstance_Exception (e : exn) : bool :=
  match exn_cls e with
  | ValueError | UnicodeDecodeError | TypeError | KeyError | IndexError
  | AttributeError | MemoryError | FileNotFoundError | UnpicklingError => true
  end.

Inductive result (A : Type) :=
| Returned (a : A)
| Raised (e : exn).
Arguments Returned {A} a.
Arguments Raised {A} e.

(** ** Tables and arrays *)

(** A value read from a CSV file, or a number put into a table. *)
Inductive cell :=
| CInt (z : Z)
| CFloat (v : float)
| CStr (s : string).

(** A pandas [DataFrame] with a default (range) index: the number of rows
    and the columns in their order, each a label and its values. *)
Record DataFrame := mk_df {
  df_nrows : nat;
  df_columns : list (string * list cell)
}.

Definition column_names (df : DataFrame) : list string :=
  map fst (df_columns df).

Definition has_column (df : DataFrame) (key : string) : bool :=
  existsb (String.eqb key) (column_names df).

(** Every column has one value per row. *)
Definition df_wf (df : DataFrame) : Prop :=
  Forall (fun c => List.length (snd c) = df_nrows df) (df_columns df).

(** [df.head()] *)
Definition head (df : DataFrame) : DataFrame :=
  {| df_nrows := Nat.min 5 (df_nrows df);
     df_columns := map (fun c => (fst c, firstn 5 (snd c))) (df_columns df) |}.

Definition str_nat (n : nat) : string := PyFloat.str_N (N.of_nat n).

Definition nan : float := S754_nan.

(** The columns after [df[key] = vals]: a column labelled [key] gets the new
    values where it stands; without one, a new column goes to the end. *)
Definition set_column (key : string) (vals : list cell)
    (cols : list (string * list cell)) : list (string * list cell) :=
  if existsb (String.eqb key) (map fst cols)
  then map (fun c => if String.eqb key (fst c) then (fst c, vals) else c) cols
  else (cols ++ [(key, vals)])%list.

(** [df[key] = vals] for an array [vals].  pandas gives a frame without rows
    the index of a non-empty [vals], filling the columns it has with NaN;
    otherwise the lengths must agree. *)
Definition setitem (df : DataFrame) (key : string) (vals : list cell)
    : result DataFrame :=
  if ((df_nrows df =? 0)%nat && negb (List.length vals =? 0)%nat)%bool then
    Returned
      {| df_nrows := List.length vals;
         df_columns :=
           set_column key vals
             (map (fun c => (fst c, repeat (CFloat nan) (List.length vals)))
                  (df_columns df)) |}
  else if (List.length vals =? df_nrows df)%nat then
    Returned
      {| df_nrows := df_nrows df;
         df_columns := set_column key vals (df_columns df) |}
  else
    Raised (mk_exn ValueError
              ("Length of values (" ++ str_nat (List.length vals)
                 ++ ") does not match length of index ("
                 ++ str_nat (df_nrows df) ++ ")")).

(** A two-dimensional numpy array of [float64], row by row. *)
Definition ndarray : Set := list (list float).

(** What [scaler.transform] is given: an array or a data frame. *)
Inductive sk_input :=
| FromArray (a : ndarray)
| FromFrame (df : DataFrame).

(** ** Figures *)

Record step := mk_step { step_range : Z * Z; step_color : string }.

(** The [go.Indicator] of the page. *)
Record indicator := mk_indicator {
  ind_mode : string;
  ind_value : float;
  ind_title : string;
  axis_range : Z * Z;
  bar_color : string;
  steps : list step
}.

(** The [px.line] of the page: the points and the labels. *)
Record line_chart := mk_line {
  line_points : list (Z * float);
  line_x : string;
  line_y : string;
  line_markers : bool;
  line_title : string
}.

Inductive figure :=
| Gauge (g : indicator)
| Line (l : line_chart).

(** ** One run of the script *)

(** What a run shows and which calls it makes to the artifacts. *)
Inductive event :=
| SetPageConfig (page_title page_icon layout : string)
| Markdown (body : string) (unsafe_allow_html : bool)
| SidebarHeader (body : string)
| Subheader (body : string)
| StSuccess (body : string)
| StError (body : string)
| StInfo (body : string)
| PlotlyChart (fig : figure)
| StDataframe (df : DataFrame)
| DownloadButton (label data file_name mime : string)
| ScalerTransform (x : sk_input)
| ModelPredict (x : ndarray).

(** Events so far, and how the computation ended. *)
Definition M (A : Type) : Type := list event * result A.

Definition ret {A} (a : A) : M A := ([], Returned a).

Definition bind {A B} (m : M A) (f : A -> M B) : M B :=
  match snd m with
  | Returned a => ((fst m ++ fst (f a))%list, snd (f a))
  | Raised e => (fst m, Raised e)
  end.

Definition emit (ev : event) : M unit := ([ev], Returned tt).

Definition lift {A} (r : result A) : M A := ([], r).

(** [try: body except C as e: handler(e)], [catches] being the test
    [isinstance(e, C)]. *)
Definition try_except {A} (body : M A) (catches : exn -> bool)
    (handler : exn -> M A) : M A :=
  match snd body with
  | Returned _ => body
  | Raised e =>
      if catches e then ((fst body ++ fst (handler e))%list, snd (handler e))
      else body
  end.

Declare Scope py_scope.
Delimit Scope py_scope with py.
Notation "x <- c1 ;; c2" := (bind c1 (fun x => c2))
  (at level 61, c1 at next level, right associativity) : py_scope.
Notation "c1 ;; c2" := (bind c1 (fun _ => c2))
  (at level 61, right associativity) : py_scope.

Definition trace {A} (m : M A) : list event := fst m.
Definition outcome {A} (m : M A) : result A := snd m.

(** The run [m] with the events [t] before it. *)
Definition after {A} (t : list event) (m : M A) : M A :=
  ((t ++ trace m)%list, outcome m).

(** ** The page *)

(** The values the widgets return in one run, and the two things the run
    reads from its environment: the clock and the random draws. *)
Record inputs := mk_inputs {
  region_name : string;            (* st.sidebar.selectbox *)
  uploaded_file : option string;   (* st.sidebar.file_uploader *)
  temp : float;                    (* the eight st.number_input *)
  RH : float;
  Ws : float;
  Rain : float;
  FFMC : float;
  DMC : float;
  DC : float;
  ISI : float;
  predict_clicked : bool;          (* st.button("Predict FWI") *)
  report_clicked : bool;           (* st.button("Download Prediction Report") *)
  today : Z;                       (* pd.Timestamp.today(), in days *)
  uniform_draws : list float       (* np.random.uniform(10, 80, size=10) *)
}.

(** The unpickled artifacts and the library functions the script calls. *)
Record Libs := mk_libs {
  scaler_transform : sk_input -> result ndarray;   (* scaler.transform *)
  model_predict : ndarray -> result (list float);  (* model.predict *)
  read_csv : string -> result DataFrame;           (* pd.read_csv *)
  to_csv : DataFrame -> string;                    (* df.to_csv(index=False) *)
  str_float : float -> string                      (* str of a float *)
}.

(** [region_map], in the order of the dict display. *)
Definition region_map : list (string * Z) :=
  [("Bejaia", 1); ("Sidi-Bel Abbes", 2)].

(** [list(region_map.keys())], the options of the select box. *)
Definition region_options : list string := map fst region_map.

Fixpoint dict_get (d : list (string * Z)) (key : string) : option Z :=
  match d with
  | [] => None
  | (k, v) :: r => if String.eqb key k then Some v else dict_get r key
  end.

Definition backslash : ascii := ascii_of_nat 92.
Definition double_quote : ascii := ascii_of_nat 34.
Definition single_quote : ascii := ascii_of_nat 39.

Fixpoint has_char (c : ascii) (s : string) : bool :=
  match s with
  | "" => false
  | String x r => Ascii.eqb x c || has_char c r
  end.

Definition hex_digit (n : nat) : ascii :=
  if (n <? 10)%nat then ascii_of_nat (48 + n) else ascii_of_nat (87 + n).

(** One character of a [str] inside its [repr], between [quote]s. *)
Definition repr_char (quote c : ascii) : string :=
  let n := nat_of_ascii c in
  if Ascii.eqb c backslash then String backslash (String backslash "")
  else if Ascii.eqb c quote then String backslash (String quote "")
  else if (n =? 10)%nat then String backslash "n"
  else if (n =? 13)%nat then String backslash "r"
  else if (n =? 9)%nat then String backslash "t"
  else if ((n <? 32) || (n =? 127))%nat then
    String backslash
      (String "x" (String (hex_digit (n / 16)) (String (hex_digit (n mod 16)) "")))
  else String c "".

Fixpoint repr_chars (quote : ascii) (s : string) : string :=
  match s with
  | "" => ""
  | String c r => repr_char quote c ++ repr_chars quote r
  end.

(** [repr] of a [str]: single quotes, or double quotes when the string
    holds a single quote and no double quote; backslashes, the quote in
    use and the ASCII control characters escaped.  The bytes of non-ASCII
    characters are kept, as [repr] keeps the printable ones. *)
Definition py_repr (s : string) : string :=
  let quote :=
    if has_char single_quote s && negb (has_char double_quote s)
    then double_quote else single_quote in
  String quote (repr_chars quote s ++ String quote "").

(** [region_map[region_name]]; the text of a [KeyError] is the [repr] of
    the key. *)
Definition region_lookup (name : string) : result Z :=
  match dict_get region_map name with
  | Some code => Returned code
  | None => Raised (mk_exn KeyError (py_repr name))
  end.

(** The default of a select box is its first option. *)
Definition default_region_name : string := hd "" region_options.

(** The form as it loads: the first region and the [value=] of each number
    input; the buttons, the upload, the clock and the draws are as given. *)
Definition form_defaults (predict report : bool) (file : option string)
    (now : Z) (draws : list float) : inputs :=
  {| region_name := default_region_name;
     uploaded_file := file;
     temp := PyFloat.of_Z 25;
     RH := PyFloat.of_Z 45;
     Ws := PyFloat.of_Z 10;
     Rain := PyFloat.of_Z 0;
     FFMC := PyFloat.of_Z 85;
     DMC := PyFloat.of_Z 50;
     DC := PyFloat.of_Z 200;
     ISI := PyFloat.of_Z 5;
     predict_clicked := predict;
     report_clicked := report;
     today := now;
     uniform_draws := draws |}.

(** [np.array([[region, temp, RH, Ws, Rain, FFMC, DMC, DC, ISI]])]: one row,
    the int among floats becoming a float. *)
Definition input_data (region : Z) (w : inputs) : ndarray :=
  [[PyFloat.of_Z region; temp w; RH w; Ws w; Rain w;
    FFMC w; DMC w; DC w; ISI w]].

Definition gauge_steps : list step :=
  [ mk_step (0, 30) "lightgreen";
    mk_step (30, 70) "yellow";
    mk_step (70, 100) "red" ].

Definition gauge (predicted_fwi : float) : indicator :=
  {| ind_mode := "gauge+number";
     ind_value := predicted_fwi;
     ind_title := "Fire Weather Index";
     axis_range := (0, 100);
     bar_color := "orange";
     steps := gauge_steps |}.

(** A step spans its range, both ends included. *)
Definition covers (s : step) (q : Q) : bool :=
  Qle_bool (inject_Z (fst (step_range s))) q
  && Qle_bool q (inject_Z (snd (step_range s))).

(** The source lists the ranges and does not say which step stands for a
    value where two of them meet.  [topmost] is one way to pick a single
    step, the last in the list that covers the value; it only serves to
    tell whether any step covers a value at all. *)
Fixpoint topmost (ss : list step) (q : Q) : option step :=
  match ss with
  | [] => None
  | s :: r =>
      match topmost r q with
      | Some t => Some t
      | None => if covers s q then Some s else None
      end
  end.

(** The risk bands, by the colour of their step. *)
Inductive band := Low | Moderate | High.

Definition band_of_color (c : string) : option band :=
  if String.eqb c "lightgreen" then Some Low
  else if String.eqb c "yellow" then Some Moderate
  else if String.eqb c "red" then Some High
  else None.

(** The band behind the needle of a gauge. *)
Definition band_of (g : indicator) : option band :=
  match PyFloat.exact_value (ind_value g) with
  | None => None
  | Some q =>
      match topmost (steps g) q with
      | Some s => band_of_color (step_color s)
      | None => None
      end
  end.



Definition indent : string := "            ".

Definition hero : string :=
  nl ++ "<div style='text-align: center; padding: 2rem 0;'>" ++ nl
  ++ "    <h1 style='color: #2e4d2e;'>🔥 Forest Weather Index Predictor</h1>" ++ nl
  ++ "    <p style='font-size: 18px; max-width: 700px; margin: auto;'>" ++ nl
  ++ "        Predict fire risk using real-time environmental data from Algerian forests. " ++ nl
  ++ "        Upload data or enter values manually to estimate the Fire Weather Index (FWI)." ++ nl
  ++ "    </p>" ++ nl
  ++ "</div>" ++ nl.

Definition footer : string :=
  "<div style='text-align: center; font-size: 0.9rem;'>Model trained on Algerian Forest Dataset | Built by Harsh 🌟</div>".

(** [pd.date_range(end=now, periods=10)], one a day. *)
Definition date_range (now : Z) : list Z :=
  map (fun i => now - 9 + Z.of_nat i) (seq 0 10).

Section Script.

Variable L : Libs.

Local Open Scope py_scope.

(** The calls to the artifacts, recorded where they are made. *)
Definition call_scaler (x : sk_input) : M ndarray :=
  emit (ScalerTransform x) ;; lift (scaler_transform L x).

Definition call_model (x : ndarray) : M (list float) :=
  emit (ModelPredict x) ;; lift (model_predict L x).

(** [a[0]] on a one-dimensional array *)
Definition getitem0 (a : list float) : result float :=
  match a with
  | v :: _ => Returned v
  | [] => Raised (mk_exn IndexError
                    "index 0 is out of bounds for axis 0 with size 0")
  end.

(** The f-string of the report. *)
Definition report (w : inputs) (predicted_fwi : float) : string :=
  nl
  ++ indent ++ "Forest Weather Index Prediction Report" ++ nl
  ++ indent ++ "--------------------------------------" ++ nl
  ++ indent ++ "Region: " ++ region_name w ++ nl
  ++ indent ++ "Temperature: " ++ str_float L (temp w) ++ " °C" ++ nl
  ++ indent ++ "Humidity: " ++ str_float L (RH w) ++ " %" ++ nl
  ++ indent ++ "Wind Speed: " ++ str_float L (Ws w) ++ " km/h" ++ nl
  ++ indent ++ "Rain: " ++ str_float L (Rain w) ++ " mm" ++ nl
  ++ indent ++ "FFMC: " ++ str_float L (FFMC w) ++ nl
  ++ indent ++ "DMC: " ++ str_float L (DMC w) ++ nl
  ++ indent ++ "DC: " ++ str_float L (DC w) ++ nl
  ++ indent ++ "ISI: " ++ str_float L (ISI w) ++ nl
  ++ indent ++ "Predicted FWI: " ++ PyFloat.format_2f predicted_fwi ++ nl
  ++ indent.

(** The body of [if st.button("Predict FWI"):]. *)
Definition single_prediction (region : Z) (w : inputs) : M unit :=
  let input_data := input_data region w in
  try_except
    (scaled_input <- call_scaler (FromArray input_data) ;;
     predictions <- call_model scaled_input ;;
     predicted_fwi <- lift (getitem0 predictions) ;;
     emit (StSuccess
             ("Estimated FWI: **" ++ PyFloat.format_2f predicted_fwi ++ "**")) ;;
     emit (PlotlyChart (Gauge (gauge predicted_fwi))) ;;
     if report_clicked w then
       emit (DownloadButton "Download Report" (report w predicted_fwi)
               "FWI_Report.txt" "text/plain")
     else ret tt)
    isinstance_ValueError
    (fun e =>
       emit (StError ("Input mismatch: " ++ exn_str e)) ;;
       emit (StInfo
               "Make sure the feature order and count match your training setup.")).

(** The body of [if uploaded_file is not None:]. *)
Definition batch_prediction (file : string) : M unit :=
  try_except
    (df <- lift (read_csv L file) ;;
     emit (Subheader "📄 Uploaded Data Preview") ;;
     emit (StDataframe (head df)) ;;
     scaled_batch <- call_scaler (FromFrame df) ;;
     batch_predictions <- call_model scaled_batch ;;
     df <- lift (setitem df "Predicted FWI" (map CFloat batch_predictions)) ;;
     emit (Subheader "✅ Batch Predictions") ;;
     emit (StDataframe df) ;;
     emit (DownloadButton "Download Results as CSV" (to_csv L df)
             "fwi_predictions.csv" "text/csv"))
    isinstance_Exception
    (fun e => emit (StError ("Error processing file: " ++ exn_str e))).

(** The simulated history and what follows it. *)
Definition history_and_footer (w : inputs) : M unit :=
  let history := combine (date_range (today w)) (uniform_draws w) in
  emit (Subheader "📊 Historical FWI Trend") ;;
  emit (PlotlyChart (Line (mk_line history "Date" "FWI" true "FWI Over Time"))) ;;
  emit (Markdown "---" false) ;;
  emit (Markdown footer true).

(** The script, from the page configuration to the footer. *)
Definition script (w : inputs) : M unit :=
  emit (SetPageConfig "FWI Predictor" "🔥" "wide") ;;
  emit (Markdown hero true) ;;
  emit (SidebarHeader "🌍 Region Selection") ;;
  region <- lift (region_lookup (region_name w)) ;;
  emit (SidebarHeader "📁 Batch Prediction") ;;
  emit (Subheader "📥 Environmental Parameters") ;;
  (if predict_clicked w then single_prediction region w else ret tt) ;;
  match uploaded_file w with
  | Some file => batch_prediction file
  | None => ret tt
  end ;;
  history_and_footer w.

End Script.

(** ** The whole file, from the loading of the artifacts *)

(** What the first lines of the file find on disk: [open] and
    [pickle.load] of [ridge.pkl] and of [scaler.pkl] each give the object
    or raise; the library functions are there in any case. *)
Record Startup := mk_startup {
  load_model : result (ndarray -> result (list float));    (* lines 10-11 *)
  load_scaler : result (sk_input -> result ndarray);       (* lines 13-14 *)
  pd_read_csv : string -> result DataFrame;
  df_to_csv : DataFrame -> string;
  py_str_float : float -> string
}.

Definition loaded (S : Startup)
    (model : ndarray -> result (list float))
    (scaler : sk_input -> result ndarray) : Libs :=
  {| scaler_transform := scaler;
     model_predict := model;
     read_csv := pd_read_csv S;
     to_csv := df_to_csv S;
     str_float := py_str_float S |}.

(** One run of the file: the model is loaded, then the scaler, then the
    page is built. *)
Definition program (S : Startup) (w : inputs) : M unit :=
  bind (lift (load_model S)) (fun model =>
  bind (lift (load_scaler S)) (fun scaler =>
  script (loaded S model scaler) w)).

(** ** Reading a run *)

(** The argument of the first call to [scaler.transform], if there is one. *)
Fixpoint first_scaler_call (t : list event) : option sk_input :=
  match t with
  | [] => None
  | ScalerTransform x :: _ => Some x
  | _ :: r => first_scaler_call r
  end.

(** The table shown under "Batch Predictions" and the data behind the CSV
    download button that follows it. *)
Fixpoint batch_output (t : list event) : option (DataFrame * string) :=
  match t with
  | StDataframe df :: (DownloadButton _ data _ _ :: _) as r =>
      match batch_output r with
      | Some o => Some o
      | None => Some (df, data)
      end
  | _ :: r => batch_output r
  | [] => None
  end.

(** What every run shows first, above the form. *)
Definition page_top : list event :=
  [ SetPageConfig "FWI Predictor" "🔥" "wide";
    Markdown hero true;
    SidebarHeader "🌍 Region Selection";
    SidebarHeader "📁 Batch Prediction";
    Subheader "📥 Environmental Parameters" ].

Definition is_download (ev : event) : bool :=
  match ev with DownloadButton _ _ _ _ => true | _ => false end.

Definition is_error (ev : event) : bool :=
  match ev with StError _ => true | _ => false end.

(** A table that went through the assignment of the predictions. *)
Definition shows_predictions (ev : event) : bool :=
  match ev with
  | StDataframe df => has_column df "Predicted FWI"
  | _ => false
  end.

(** What the single-record path displays: everything but the download
    button of the report. *)
Definition displayed (t : list event) : list event :=
  filter (fun ev => negb (is_download ev)) t.

(** Two runs in which the form holds the same region and the same eight
    readings. *)
Definition same_readings (w1 w2 : inputs) : Prop :=
  region_name w1 = region_name w2 /\
  temp w1 = temp w2 /\ RH w1 = RH w2 /\ Ws w1 = Ws w2 /\ Rain w1 = Rain w2 /\
  FFMC w1 = FFMC w2 /\ DMC w1 = DMC w2 /\ DC w1 = DC w2 /\ ISI w1 = ISI w2.

(** ** How a block ends *)

Section Outcomes.

Variable L : Libs.

(** What [except ValueError] shows. *)
Definition mismatch_messages (e : exn) : list event :=
  [StError ("Input mismatch: " ++ exn_str e);
   StInfo "Make sure the feature order and count match your training setup."].

(** What a successful single prediction shows. *)
Definition prediction_display (w : inputs) (v : float) : list event :=
  [StSuccess ("Estimated FWI: **" ++ PyFloat.format_2f v ++ "**");
   PlotlyChart (Gauge (gauge v))]
  ++ (if report_clicked w
      then [DownloadButton "Download Report" (report L w v)
              "FWI_Report.txt" "text/plain"]
      else []).

(** The end of a [try] block of the single path that raised [e] after
    the events [t]. *)
Definition single_handler (t : list event) (e : exn) : M unit :=
  if isinstance_ValueError e
  then ((t ++ mismatch_messages e)%list, Returned tt)
  else (t, Raised e).

(** The scaler or the model, called in turn on [x], raises [e]. *)
Inductive artifact_failure (x : sk_input) (e : exn) : Prop :=
| scaler_fails :
    scaler_transform L x = Raised e -> artifact_failure x e
| model_fails (scaled : ndarray) :
    scaler_transform L x = Returned scaled ->
    model_predict L scaled = Raised e ->
    artifact_failure x e.

(** The calls made to the artifacts before the failure. *)
Definition is_call (ev : event) : bool :=
  match ev with
  | ScalerTransform _ | ModelPredict _ => true
  | _ => false
  end.

(** The ways the batch block can fail: reading the file, the scaler or
    the model, or the assignment of the predictions. *)
Inductive batch_failure (file : string) (e : exn) : Prop :=
| read_fails :
    read_csv L file = Raised e -> batch_failure file e
| artifacts_fail (df : DataFrame) :
    read_csv L file = Returned df ->
    artifact_failure (FromFrame df) e ->
    batch_failure file e
| assignment_fails (df : DataFrame) (scaled : ndarray) (preds : list float) :
    read_csv L file = Returned df ->
    scaler_transform L (FromFrame df) = Returned scaled ->
    model_predict L scaled = Returned preds ->
    setitem df "Predicted FWI" (map CFloat preds) = Raised e ->
    batch_failure file e.

End Outcomes.

(** ** More ways to read a run *)

Definition is_page_config (ev : event) : bool :=
  match ev with SetPageConfig _ _ _ => true | _ => false end.

(** The download button of the report, told from the one of the CSV by
    its label. *)
Definition is_report_button (ev : event) : bool :=
  match ev with
  | DownloadButton label _ _ _ => String.eqb label "Download Report"
  | _ => false
  end.

Definition is_success (ev : event) : bool :=
  match ev with StSuccess _ => true | _ => false end.

(** The single-record block of a run: the body of the [if] when the
    button returned [True], nothing otherwise. *)
Definition single_block (L : Libs) (region : Z) (w : inputs) : M unit :=
  if predict_clicked w then single_prediction L region w else ret tt.

(** The batch block of a run. *)
Definition batch_block (L : Libs) (w : inputs) : M unit :=
  match uploaded_file w with
  | Some file => batch_prediction L file
  | None => ret tt
  end.

(** ** Stand-ins for the artifacts

    A scaler that leaves the values as they are and checks the number of
    features it was fitted on, and a linear model whose only non-zero
    coefficient is the one of the temperature.  They are used to run the
    script on concrete inputs. *)

Module Demo.

Definition cell_to_float (c : cell) : result float :=
  match c with
  | CInt z => Returned (PyFloat.of_Z z)
  | CFloat v => Returned v
  | CStr s =>
      Raised (mk_exn ValueError
                ("could not convert string to float: '" ++ s ++ "'"))
  end.

Fixpoint row_to_floats (r : list cell) : result (list float) :=
  match r with
  | [] => Returned []
  | c :: r' =>
      match cell_to_float c, row_to_floats r' with
      | Returned v, Returned vs => Returned (v :: vs)
      | Raised e, _ => Raised e
      | _, Raised e => Raised e
      end
  end.

Definition row_of (df : DataFrame) (i : nat) : list cell :=
  map (fun c => nth i (snd c) (CFloat nan)) (df_columns df).

Fixpoint rows_to_floats (rs : list (list cell)) : result ndarray :=
  match rs with
  | [] => Returned []
  | r :: rs' =>
      match row_to_floats r, rows_to_floats rs' with
      | Returned v, Returned vs => Returned (v :: vs)
      | Raised e, _ => Raised e
      | _, Raised e => Raised e
      end
  end.

Definition to_array (x : sk_input) : result ndarray :=
  match x with
  | FromArray a => Returned a
  | FromFrame df => rows_to_floats (map (row_of df) (seq 0 (df_nrows df)))
  end.

(** A scaler fitted on [n] features, with mean 0 and scale 1. *)
Definition scaler (n : nat) (x : sk_input) : result ndarray :=
  match to_array x with
  | Raised e => Raised e
  | Returned a =>
      match find (fun r => negb (List.length r =? n)%nat) a with
      | Some r =>
          Raised (mk_exn ValueError
                    ("X has " ++ str_nat (List.length r)
                       ++ " features, but StandardScaler is expecting "
                       ++ str_nat n ++ " features as input."))
      | None => Returned a
      end
  end.

(** A model that answers the second feature, the temperature. *)
Definition model (a : ndarray) : result (list float) :=
  Returned (map (fun r => nth 1 r nan) a).

(** A model that fails with an error that is not a [ValueError]. *)
Definition broken_model (a : ndarray) : result (list float) :=
  Raised (mk_exn AttributeError
            "'NoneType' object has no attribute 'predict'").

Definition str_cell (c : cell) : string :=
  match c with
  | CInt z =>
      (if z <? 0 then "-" else "") ++ PyFloat.str_N (Z.to_N (Z.abs z))
  | CFloat v => PyFloat.format_2f v
  | CStr s => s
  end.

Definition writer (df : DataFrame) : string :=
  String.concat "," (column_names df) ++ nl
  ++ String.concat ""
       (map (fun i => String.concat "," (map str_cell (row_of df i)) ++ nl)
            (seq 0 (df_nrows df))).

(** One record under the nine expected headers. *)
Definition csv_ok : string :=
  "Region,Temperature,RH,Ws,Rain,FFMC,DMC,DC,ISI" ++ nl
  ++ "1,25,45,10,0,85,50,200,5" ++ nl.

Definition df_ok : DataFrame :=
  {| df_nrows := 1;
     df_columns :=
       [("Region", [CInt 1]); ("Temperature", [CInt 25]); ("RH", [CInt 45]);
        ("Ws", [CInt 10]); ("Rain", [CInt 0]); ("FFMC", [CInt 85]);
        ("DMC", [CInt 50]); ("DC", [CInt 200]); ("ISI", [CInt 5])] |}.

(** The same record in a file whose last header is the name the script
    gives to its own column. *)
Definition csv_clash : string :=
  "Region,Temperature,RH,Ws,Rain,FFMC,DMC,DC,Predicted FWI" ++ nl
  ++ "1,25,45,10,0,85,50,200,5" ++ nl.

Definition df_clash : DataFrame :=
  {| df_nrows := 1;
     df_columns :=
       [("Region", [CInt 1]); ("Temperature", [CInt 25]); ("RH", [CInt 45]);
        ("Ws", [CInt 10]); ("Rain", [CInt 0]); ("FFMC", [CInt 85]);
        ("DMC", [CInt 50]); ("DC", [CInt 200]);
        ("Predicted FWI", [CInt 5])] |}.

(** A reader that knows the two files above and rejects the rest. *)
Definition reader (file : string) : result DataFrame :=
  if String.eqb file csv_ok then Returned df_ok
  else if String.eqb file csv_clash then Returned df_clash
  else Raised (mk_exn ValueError "Error tokenizing data").

(** [str] of a float, right on the whole numbers below [10 ^ 16], which
    is all it is used on. *)
Definition str_whole (v : float) : string :=
  match v with
  | S754_zero s => (if s then "-" else "") ++ "0.0"
  | S754_finite s m e =>
      let '(n, d) := PyFloat.magnitude m e in
      (if s then "-" else "") ++ PyFloat.str_N (Z.to_N (n / Zpos d)) ++ ".0"
  | _ => PyFloat.format_2f v
  end.

Definition libs (n : nat) : Libs :=
  {| scaler_transform := scaler n;
     model_predict := model;
     read_csv := reader;
     to_csv := writer;
     str_float := str_whole |}.

Definition broken_libs : Libs :=
  {| scaler_transform := scaler 9;
     model_predict := broken_model;
     read_csv := reader;
     to_csv := writer;
     str_float := str_whole |}.

(** The form as it loads, with the given buttons pressed. *)
Definition form (predict report : bool) (file : option string) : inputs :=
  form_defaults predict report file 0 (repeat (PyFloat.of_Z 42) 10).

(** The record of the form as it loads, as the scaler receives it. *)
Definition default_row : list float :=
  [PyFloat.of_Z 1; PyFloat.of_Z 25; PyFloat.of_Z 45; PyFloat.of_Z 10;
   PyFloat.of_Z 0; PyFloat.of_Z 85; PyFloat.of_Z 50; PyFloat.of_Z 200;
   PyFloat.of_Z 5].

(** A scaler fitted on eight features is handed the nine of the form. *)
Definition eight_expected : exn :=
  mk_exn ValueError
    "X has 9 features, but StandardScaler is expecting 8 features as input.".

(** A model object without its [predict]. *)
Definition no_predict : exn :=
  mk_exn AttributeError "'NoneType' object has no attribute 'predict'".

(** A model that answers NaN for every row. *)
Definition nan_model (a : ndarray) : result (list float) :=
  Returned (map (fun _ => nan) a).

Definition nan_libs : Libs :=
  {| scaler_transform := scaler 9;
     model_predict := nan_model;
     read_csv := reader;
     to_csv := writer;
     str_float := str_whole |}.

(** A working directory with both pickles, and one without
    [scaler.pkl]. *)
Definition startup_ok : Startup :=
  {| load_model := Returned model;
     load_scaler := Returned (scaler 9);
     pd_read_csv := reader;
     df_to_csv := writer;
     py_str_float := str_whole |}.

Definition no_scaler_file : exn :=
  mk_exn FileNotFoundError
    "[Errno 2] No such file or directory: 'scaler.pkl'".

Definition startup_no_scaler : Startup :=
  {| load_model := Returned model;
     load_scaler := Raised no_scaler_file;
     pd_read_csv := reader;
     df_to_csv := writer;
     py_str_float := str_whole |}.

(** A model that answers an empty array. *)
Definition silent_model (a : ndarray) : result (list float) := Returned [].

Definition silent_libs : Libs :=
  {| scaler_transform := scaler 9;
     model_predict := silent_model;
     read_csv := reader;
     to_csv := writer;
     str_float := str_whole |}.

(** What the batch block makes of [df_clash] with [libs 9]. *)
Definition df_clash_out : DataFrame :=
  {| df_nrows := 1;
     df_columns :=
       [("Region", [CInt 1]); ("Temperature", [CInt 25]); ("RH", [CInt 45]);
        ("Ws", [CInt 10]); ("Rain", [CInt 0]); ("FFMC", [CInt 85]);
        ("DMC", [CInt 50]); ("DC", [CInt 200]);
        ("Predicted FWI", [CFloat (PyFloat.of_Z 25)])] |}.

End Demo.

(** ** Strings and numbers *)

Lemma string_app_assoc (a b c : string) : (a ++ b) ++ c = a ++ b ++ c.
Proof. induction a as [|x a IH]; simpl; [reflexivity|now rewrite IH]. Qed.

Lemma contains_middle (pre sub post : string) :
  contains (pre ++ sub ++ post) sub.
Proof. now exists pre, post. Qed.

Lemma uint_string_points (d : Decimal.uint) (r : string) :
  after_point (NilEmpty.string_of_uint d ++ String "." r) = Some r /\
  before_point (NilEmpty.string_of_uint d ++ String "." r) =
    NilEmpty.string_of_uint d.
Proof.
  induction d; simpl; try (destruct IHd as [-> ->]); auto.
Qed.

Lemma uint_string_unsigned (d : Decimal.uint) (r : string) :
  exists c s, NilEmpty.string_of_uint d ++ String "." r = String c s /\
              Ascii.eqb c "-" = false.
Proof. destruct d; simpl; eexists; eexists; split; reflexivity. Qed.

Lemma digit_is_digit (k : Z) :
  0 <= k < 10 ->
  is_digit (PyFloat.digit k) = true /\
  digit_value (PyFloat.digit k) = Some k.
Proof.
  intros H. assert (E : k = Z.of_nat (Z.to_nat k)) by lia.
  assert (B : (Z.to_nat k < 10)%nat) by lia.
  rewrite E at 3. unfold PyFloat.digit. generalize dependent (Z.to_nat k).
  intros n _ B.
  do 10 (destruct n as [|n]; [split; reflexivity|]). lia.
Qed.

Lemma read_hundredths_fixed2 (h : Z) :
  0 <= h ->
  read_hundredths
    (PyFloat.str_N (Z.to_N (h / 100)) ++ "."
       ++ String (PyFloat.digit (h mod 100 / 10))
            (String (PyFloat.digit (h mod 10)) "")) = Some h.
Proof.
  intros H. unfold read_hundredths, PyFloat.str_N.
  change ("." ++ ?r) with (String "." r).
  destruct (uint_string_points (N.to_uint (Z.to_N (h / 100)))
              (String (PyFloat.digit (h mod 100 / 10))
                 (String (PyFloat.digit (h mod 10)) ""))) as [-> ->].
  rewrite NilEmpty.usu.
  destruct (digit_is_digit (h mod 100 / 10)) as [_ ->];
    [pose proof (Z.mod_pos_bound h 100); split;
       [apply Z.div_pos; lia | apply Z.div_lt_upper_bound; lia]|].
  destruct (digit_is_digit (h mod 10)) as [_ ->];
    [pose proof (Z.mod_pos_bound h 10); lia|].
  rewrite DecimalN.Unsigned.of_to, Z2N.id by (apply Z.div_pos; lia).
  f_equal.
  Z.div_mod_to_equations. lia.
Qed.

Lemma read_fixed2_fixed2 (neg : bool) (h : Z) :
  0 <= h ->
  read_fixed2 (PyFloat.fixed2 neg h) =
    Some ((if neg then - h else h) # 100).
Proof.
  intros H. unfold PyFloat.fixed2. destruct neg.
  - change ("-" ++ ?r) with (String "-" r). unfold read_fixed2.
    rewrite Ascii.eqb_refl, read_hundredths_fixed2; auto.
  - change ("" ++ ?r) with r.
    pose proof (read_hundredths_fixed2 h H) as R.
    unfold PyFloat.str_N in *.
    change ("." ++ ?r) with (String "." r) in *.
    destruct (uint_string_unsigned (N.to_uint (Z.to_N (h / 100)))
                (String (PyFloat.digit (h mod 100 / 10))
                   (String (PyFloat.digit (h mod 10)) ""))) as (c & s & E & N).
    rewrite E in *. unfold read_fixed2. now rewrite N, R.
Qed.

Lemma two_decimals_fixed2 (neg : bool) (h : Z) :
  0 <= h -> two_decimals (PyFloat.fixed2 neg h).
Proof.
  intros H. exists (PyFloat.digit (h mod 100 / 10)), (PyFloat.digit (h mod 10)).
  assert (A : after_point (PyFloat.fixed2 neg h) =
              Some (String (PyFloat.digit (h mod 100 / 10))
                      (String (PyFloat.digit (h mod 10)) ""))).
  { unfold PyFloat.fixed2, PyFloat.str_N.
    change ("." ++ ?r) with (String "." r).
    destruct neg; simpl; apply uint_string_points. }
  split; [exact A|]. split.
  - apply digit_is_digit. pose proof (Z.mod_pos_bound h 100). split;
      [apply Z.div_pos; lia | apply Z.div_lt_upper_bound; lia].
  - apply digit_is_digit. pose proof (Z.mod_pos_bound h 10). lia.
Qed.

Lemma round_half_even_nearest (n : Z) (d : positive) :
  0 <= n ->
  0 <= PyFloat.round_half_even n d /\
  Z.abs (2 * n - 2 * PyFloat.round_half_even n d * Zpos d) <= Zpos d.
Proof.
  intros H. unfold PyFloat.round_half_even.
  pose proof (Z.div_mod n (Zpos d) ltac:(lia)) as E.
  pose proof (Z.mod_pos_bound n (Zpos d) ltac:(lia)) as B.
  assert (Q0 : 0 <= n / Zpos d) by (apply Z.div_pos; lia).
  set (q := n / Zpos d) in *. set (r := n mod Zpos d) in *.
  destruct (Z.compare_spec (2 * r) (Zpos d)) as [C|C|C];
    [destruct (Z.even q)| |]; split; lia.
Qed.

Lemma magnitude_pos (m : positive) (e : Z) :
  0 < fst (PyFloat.magnitude m e).
Proof.
  unfold PyFloat.magnitude. destruct (0 <=? e) eqn:E; cbn [fst]; [|lia].
  apply Z.leb_le in E.
  pose proof (Z.pow_pos_nonneg 2 e ltac:(lia) E). nia.
Qed.

(** The string [f"{v:.2f}"] of a finite [v] ends in two digits and reads
    as a number within half a hundredth of [v]. *)
Lemma format_2f_rounds (v : float) :
  PyFloat.is_finite v = true ->
  two_decimals (PyFloat.format_2f v) /\
  exists q x,
    PyFloat.exact_value v = Some q /\
    read_fixed2 (PyFloat.format_2f v) = Some x /\
    (Qabs (q - x) <= 1 # 200)%Q.
Proof.
  destruct v as [s|s| |s m e]; try discriminate; intros _;
    cbn [PyFloat.format_2f PyFloat.exact_value].
  - split; [now apply two_decimals_fixed2|].
    exists (0 # 1), ((if s then - 0 else 0) # 100).
    split; [reflexivity|]. split; [now apply read_fixed2_fixed2|].
    now destruct s.
  - unfold PyFloat.hundredths.
    pose proof (magnitude_pos m e) as P.
    destruct (PyFloat.magnitude m e) as [n d]. cbn [fst] in P.
    destruct (round_half_even_nearest (100 * n) d ltac:(lia)) as [H0 H1].
    set (h := PyFloat.round_half_even (100 * n) d) in *.
    split; [now apply two_decimals_fixed2|].
    exists ((if s then - n else n) # d), ((if s then - h else h) # 100).
    split; [reflexivity|]. split; [now apply read_fixed2_fixed2|].
    apply (proj2 (Qabs_Qle_condition _ _)).
    unfold Qle, Qminus, Qplus, Qopp. cbn [Qnum Qden].
    rewrite ?Pos2Z.inj_mul. destruct s; lia.
Qed.

Lemma starts_last (b s : string) : starts_with (b ++ s) b.
Proof. now exists s. Qed.

Lemma starts_step (a s sub : string) :
  starts_with s sub -> starts_with (a ++ s) (a ++ sub).
Proof. intros [post ->]. exists post. now rewrite string_app_assoc. Qed.

Lemma contains_start (s sub : string) : starts_with s sub -> contains s sub.
Proof. intros [post ->]. now exists "", post. Qed.

Lemma contains_skip (a s sub : string) :
  contains s sub -> contains (a ++ s) sub.
Proof.
  intros (pre & post & ->). exists (a ++ pre), post.
  now rewrite string_app_assoc.
Qed.

(** Finds a run of consecutive fragments in a string written as a chain
    of appends. *)
Ltac find_fragments :=
  repeat first
    [ apply contains_start;
      solve [repeat apply starts_step; apply starts_last]
    | apply contains_skip ].

(** ** The monad *)

Section MonadFacts.

Context {A B : Type}.

Lemma bind_emit (ev : event) (k : unit -> M B) :
  bind (emit ev) k = (ev :: trace (k tt), outcome (k tt)).
Proof. reflexivity. Qed.

Lemma bind_returned (a : A) (k : A -> M B) :
  bind (lift (Returned a)) k = k a.
Proof. unfold bind; simpl. now destruct (k a). Qed.

Lemma bind_raised (e : exn) (k : A -> M B) :
  bind (lift (Raised e)) k = ([], Raised e).
Proof. reflexivity. Qed.

Lemma trace_bind (m : M A) (k : A -> M B) :
  exists rest, trace (bind m k) = (trace m ++ rest)%list.
Proof.
  unfold bind, trace. destruct (snd m); simpl.
  - now eexists.
  - exists []. now rewrite app_nil_r.
Qed.

Lemma bind_after_return (m : M A) (a : A) (k : A -> M B) :
  outcome m = Returned a ->
  bind m k = ((trace m ++ trace (k a))%list, outcome (k a)).
Proof. unfold bind, outcome, trace. now intros ->. Qed.

Lemma bind_after_raise (m : M A) (e : exn) (k : A -> M B) :
  outcome m = Raised e -> bind m k = (trace m, Raised e).
Proof. unfold bind, outcome, trace. now intros ->. Qed.

End MonadFacts.

Lemma first_scaler_call_app (t1 t2 : list event) :
  first_scaler_call t1 = None ->
  first_scaler_call (t1 ++ t2) = first_scaler_call t2.
Proof.
  induction t1 as [|ev t1 IH]; simpl; [reflexivity|].
  destruct ev; auto; discriminate.
Qed.

(** ** The claims *)

Section Claims.

Variable L : Libs.

(** A run whose region lookup succeeds is the top of the page followed
    by the two prediction blocks and the history. *)
Lemma script_unfold (w : inputs) (region : Z) :
  region_lookup (region_name w) = Returned region ->
  script L w =
    after page_top
      (bind (if predict_clicked w then single_prediction L region w
             else ret tt)
         (fun _ =>
            bind (match uploaded_file w with
                  | Some file => batch_prediction L file
                  | None => ret tt
                  end)
              (fun _ => history_and_footer w))).
Proof.
  intros Hr. unfold script. rewrite Hr.
  rewrite !bind_emit, bind_returned, !bind_emit. reflexivity.
Qed.

Lemma trace_try_except {A} (body : M A) catches handler :
  exists rest, trace (try_except body catches handler) = (trace body ++ rest)%list.
Proof.
  unfold try_except, trace. destruct (snd body) as [a|e].
  - exists []. now rewrite app_nil_r.
  - destruct (catches e); simpl.
    + now eexists.
    + exists []. now rewrite app_nil_r.
Qed.

Lemma single_prediction_first_call (w : inputs) (region : Z) :
  exists rest,
    trace (single_prediction L region w) =
      ScalerTransform (FromArray (input_data region w)) :: rest.
Proof.
  unfold single_prediction.
  destruct (trace_try_except
    (bind (call_scaler L (FromArray (input_data region w)))
       (fun scaled_input =>
          bind (call_model L scaled_input)
            (fun predictions =>
               bind (lift (getitem0 predictions))
                 (fun predicted_fwi =>
                    bind (emit (StSuccess
                                  ("Estimated FWI: **"
                                     ++ PyFloat.format_2f predicted_fwi ++ "**")))
                      (fun _ =>
                         bind (emit (PlotlyChart (Gauge (gauge predicted_fwi))))
                           (fun _ =>
                              if report_clicked w
                              then emit (DownloadButton "Download Report"
                                           (report L w predicted_fwi)
                                           "FWI_Report.txt" "text/plain")
                              else ret tt))))))
    isinstance_ValueError
    (fun e =>
       bind (emit (StError ("Input mismatch: " ++ exn_str e)))
         (fun _ =>
            emit (StInfo
                    "Make sure the feature order and count match your training setup."))))
    as [rest ->].
  match goal with |- context [trace (bind ?m ?k)] =>
    destruct (trace_bind m k) as [rest' ->] end.
  unfold call_scaler. rewrite bind_emit. simpl. now eexists.
Qed.

(** C1. Pressing Predict hands the scaler, in its first call, the row
    [region code, temp, RH, Ws, Rain, FFMC, DMC, DC, ISI] in that order;
    with the form as it loads (region Bejaia, 25, 45, 10, 0, 85, 50, 200,
    5) the row is [1, 25, 45, 10, 0, 85, 50, 200, 5], the code 1 having
    become the float 1.0 in the array. *)
Theorem C1_feature_vector_order :
  (forall (w : inputs) (region : Z),
      predict_clicked w = true ->
      region_lookup (region_name w) = Returned region ->
      first_scaler_call (trace (script L w)) =
        Some (FromArray
                [[PyFloat.of_Z region; temp w; RH w; Ws w; Rain w;
                  FFMC w; DMC w; DC w; ISI w]]))
  /\
  (forall report file now draws,
      region_name (form_defaults true report file now draws) = "Bejaia" /\
      first_scaler_call
        (trace (script L (form_defaults true report file now draws))) =
        Some (FromArray
                [[PyFloat.of_Z 1; PyFloat.of_Z 25; PyFloat.of_Z 45;
                  PyFloat.of_Z 10; PyFloat.of_Z 0; PyFloat.of_Z 85;
                  PyFloat.of_Z 50; PyFloat.of_Z 200; PyFloat.of_Z 5]])).
Proof.
  assert (G : forall (w : inputs) (region : Z),
      predict_clicked w = true ->
      region_lookup (region_name w) = Returned region ->
      first_scaler_call (trace (script L w)) =
        Some (FromArray (input_data region w))).
  { intros w region Hp Hr.
    rewrite (script_unfold w region Hr), Hp.
    match goal with |- context [bind ?m ?k] =>
      destruct (trace_bind m k) as [rest Hb] end.
    destruct (single_prediction_first_call w region) as [rest' Hs].
    unfold after. cbn [trace fst] in *. rewrite Hb, Hs. reflexivity. }
  split.
  - exact G.
  - intros report file now draws. split; [reflexivity|].
    now rewrite (G _ 1).
Qed.

(** C2. The select box offers exactly "Bejaia" and "Sidi-Bel Abbes"; the
    first is looked up as 1 and the second as 2, in every run. *)
Theorem C2_region_mapping :
  region_options = ["Bejaia"; "Sidi-Bel Abbes"] /\
  region_lookup "Bejaia" = Returned 1 /\
  region_lookup "Sidi-Bel Abbes" = Returned 2 /\
  (forall name : string,
      In name region_options <->
      name = "Bejaia" \/ name = "Sidi-Bel Abbes") /\
  (forall name : string,
      (exists code, region_lookup name = Returned code) <->
      In name region_options) /\
  (forall (w : inputs) (region : Z),
      region_lookup (region_name w) = Returned region <->
      (region_name w = "Bejaia" /\ region = 1) \/
      (region_name w = "Sidi-Bel Abbes" /\ region = 2)).
Proof.
  assert (K : forall name region,
      region_lookup name = Returned region <->
      (name = "Bejaia" /\ region = 1) \/
      (name = "Sidi-Bel Abbes" /\ region = 2)).
  { intros name region. unfold region_lookup, region_map, dict_get.
    destruct (String.eqb_spec name "Bejaia") as [->|N1].
    - split.
      + intros [= <-]. now left.
      + intros [[_ ->]|[[=] _]]. reflexivity.
    - destruct (String.eqb_spec name "Sidi-Bel Abbes") as [->|N2].
      + split.
        * intros [= <-]. now right.
        * intros [[[=] _]|[_ ->]]. reflexivity.
      + split; [discriminate|]. intros [[E _]|[E _]]; contradiction. }
  repeat split.
  - simpl. intros [<-|[<-|[]]]; auto.
  - intros [->| ->]; simpl; auto.
  - intros [code H]. apply K in H. simpl.
    destruct H as [[-> _]|[-> _]]; auto.
  - simpl. intros [<-|[<-|[]]]; eexists; reflexivity.
  - apply K.
  - apply K.
Qed.

(** What the two ends of a range say about a value, as propositions. *)
Lemma covers_iff (s : step) (q : Q) :
  covers s q = true <->
  (inject_Z (fst (step_range s)) <= q /\ q <= inject_Z (snd (step_range s)))%Q.
Proof.
  unfold covers. rewrite andb_true_iff, !Qle_bool_iff. reflexivity.
Qed.

Lemma covers_false_iff (s : step) (q : Q) :
  covers s q = false <->
  (q < inject_Z (fst (step_range s)) \/ inject_Z (snd (step_range s)) < q)%Q.
Proof.
  rewrite <- not_true_iff_false, covers_iff. split.
  - intros N.
    destruct (Qlt_le_dec q (inject_Z (fst (step_range s)))) as [H|H]; auto.
    destruct (Qlt_le_dec (inject_Z (snd (step_range s))) q) as [H'|H']; auto.
    exfalso. auto.
  - intros [H|H] [H1 H2]; apply Qlt_not_le in H; contradiction.
Qed.

(** The band seen at [q] on the steps of the page. *)
Lemma topmost_gauge_steps (q : Q) :
  (topmost gauge_steps q = Some (mk_step (0, 30) "lightgreen")
     <-> (0 <= q /\ q < 30)%Q) /\
  (topmost gauge_steps q = Some (mk_step (30, 70) "yellow")
     <-> (30 <= q /\ q < 70)%Q) /\
  (topmost gauge_steps q = Some (mk_step (70, 100) "red")
     <-> (70 <= q /\ q <= 100)%Q) /\
  (topmost gauge_steps q = None <-> (q < 0 \/ 100 < q)%Q) /\
  (topmost gauge_steps q = None
   \/ topmost gauge_steps q = Some (mk_step (0, 30) "lightgreen")
   \/ topmost gauge_steps q = Some (mk_step (30, 70) "yellow")
   \/ topmost gauge_steps q = Some (mk_step (70, 100) "red")).
Proof.
  unfold gauge_steps, topmost.
  destruct (covers (mk_step (70, 100) "red") q) eqn:H3;
    destruct (covers (mk_step (30, 70) "yellow") q) eqn:H2;
    destruct (covers (mk_step (0, 30) "lightgreen") q) eqn:H1;
    repeat match goal with
           | H : covers _ _ = true |- _ => apply covers_iff in H; simpl in H
           | H : covers _ _ = false |- _ =>
               apply covers_false_iff in H; simpl in H
           end;
    unfold inject_Z in *;
    repeat split; intros; try discriminate; try reflexivity;
    repeat match goal with
           | H : _ /\ _ |- _ => destruct H
           | H : _ \/ _ |- _ => destruct H
           end;
    try lra; try (exfalso; lra); try (left; lra); try (right; lra);
    auto.
Qed.





Lemma isinstance_Exception_all (e : exn) : isinstance_Exception e = true.
Proof. destruct e as [c s]. now destruct c. Qed.

(** The batch block, call by call. *)
Lemma batch_cases (file : string) :
  match read_csv L file with
  | Raised e =>
      batch_prediction L file =
        ([StError ("Error processing file: " ++ exn_str e)], Returned tt)
  | Returned df =>
      let shown :=
        [Subheader "📄 Uploaded Data Preview"; StDataframe (head df);
         ScalerTransform (FromFrame df)] in
      match scaler_transform L (FromFrame df) with
      | Raised e =>
          batch_prediction L file =
            ((shown ++ [StError ("Error processing file: " ++ exn_str e)])%list,
             Returned tt)
      | Returned scaled =>
          match model_predict L scaled with
          | Raised e =>
              batch_prediction L file =
                ((shown ++ [ModelPredict scaled;
                            StError ("Error processing file: " ++ exn_str e)])%list,
                 Returned tt)
          | Returned preds =>
              match setitem df "Predicted FWI" (map CFloat preds) with
              | Raised e =>
                  batch_prediction L file =
                    ((shown ++ [ModelPredict scaled;
                                StError ("Error processing file: "
                                           ++ exn_str e)])%list,
                     Returned tt)
              | Returned out =>
                  batch_prediction L file =
                    ((shown ++ [ModelPredict scaled;
                                Subheader "✅ Batch Predictions";
                                StDataframe out;
                                DownloadButton "Download Results as CSV"
                                  (to_csv L out) "fwi_predictions.csv"
                                  "text/csv"])%list,
                     Returned tt)
              end
          end
      end
  end.
Proof.
  unfold batch_prediction, call_scaler, call_model.
  destruct (read_csv L file) as [df|e]; cbn.
  2: { unfold try_except; cbn. now rewrite isinstance_Exception_all. }
  destruct (scaler_transform L (FromFrame df)) as [scaled|e]; cbn.
  2: { unfold try_except; cbn. now rewrite isinstance_Exception_all. }
  destruct (model_predict L scaled) as [preds|e]; cbn.
  2: { unfold try_except; cbn. now rewrite isinstance_Exception_all. }
  destruct (setitem df "Predicted FWI" (map CFloat preds)) as [out|e]; cbn.
  2: { unfold try_except; cbn. now rewrite isinstance_Exception_all. }
  reflexivity.
Qed.

(** The assignment of the predictions when there is one for each row. *)
Lemma setitem_aligned (df : DataFrame) (key : string) (vals : list cell) :
  List.length vals = df_nrows df ->
  setitem df key vals =
    Returned {| df_nrows := df_nrows df;
                df_columns := set_column key vals (df_columns df) |}.
Proof.
  intros H. unfold setitem. rewrite H, Nat.eqb_refl.
  now destruct (df_nrows df =? 0)%nat.
Qed.

(** A batch run that got through the scaler, the model and the
    assignment shows the table [out] and offers it as CSV. *)
Lemma batch_success (file : string) (df out : DataFrame)
    (scaled : ndarray) (preds : list float) :
  read_csv L file = Returned df ->
  scaler_transform L (FromFrame df) = Returned scaled ->
  model_predict L scaled = Returned preds ->
  setitem df "Predicted FWI" (map CFloat preds) = Returned out ->
  batch_prediction L file =
    ([Subheader "📄 Uploaded Data Preview"; StDataframe (head df);
      ScalerTransform (FromFrame df); ModelPredict scaled;
      Subheader "✅ Batch Predictions"; StDataframe out;
      DownloadButton "Download Results as CSV" (to_csv L out)
        "fwi_predictions.csv" "text/csv"],
     Returned tt).
Proof.
  intros Hr Hs Hm Ha. generalize (batch_cases file).
  rewrite Hr. cbn zeta. rewrite Hs, Hm, Ha. auto.
Qed.

(** C4, amended. When the uploaded table has no column named
    "Predicted FWI" and the model answers one prediction per row, the
    table shown and offered as CSV has the rows of the upload and its
    columns, names and values in their order, followed by the one column
    of predictions. *)
Theorem C4_batch_appends_column (file : string) (df : DataFrame)
    (scaled : ndarray) (preds : list float) :
  read_csv L file = Returned df ->
  scaler_transform L (FromFrame df) = Returned scaled ->
  model_predict L scaled = Returned preds ->
  List.length preds = df_nrows df ->
  has_column df "Predicted FWI" = false ->
  let out :=
    {| df_nrows := df_nrows df;
       df_columns :=
         (df_columns df ++ [("Predicted FWI", map CFloat preds)])%list |} in
  outcome (batch_prediction L file) = Returned tt /\
  batch_output (trace (batch_prediction L file)) = Some (out, to_csv L out) /\
  In (StDataframe out) (trace (batch_prediction L file)) /\
  In (DownloadButton "Download Results as CSV" (to_csv L out)
        "fwi_predictions.csv" "text/csv")
     (trace (batch_prediction L file)).
Proof.
  intros Hr Hs Hm Hlen Hcol out.
  assert (Ha : setitem df "Predicted FWI" (map CFloat preds) = Returned out).
  { rewrite setitem_aligned by now rewrite length_map.
    unfold set_column. unfold has_column, column_names in Hcol.
    now rewrite Hcol. }
  rewrite (batch_success file df out scaled preds Hr Hs Hm Ha).
  cbn [outcome trace fst snd]. repeat split.
  - simpl. tauto.
  - simpl. tauto.
Qed.

(** C10. When the uploaded table already has a column named
    "Predicted FWI", the assignment puts the predictions in that column:
    the table shown and offered as CSV has the same column names as the
    upload, none added, the values the upload had under that name are
    replaced by the predictions, and the other columns are as they
    were. *)
Theorem C10_existing_column_overwritten (file : string) (df : DataFrame)
    (scaled : ndarray) (preds : list float) :
  read_csv L file = Returned df ->
  scaler_transform L (FromFrame df) = Returned scaled ->
  model_predict L scaled = Returned preds ->
  List.length preds = df_nrows df ->
  has_column df "Predicted FWI" = true ->
  let out :=
    {| df_nrows := df_nrows df;
       df_columns :=
         map (fun c => if String.eqb "Predicted FWI" (fst c)
                       then (fst c, map CFloat preds) else c)
             (df_columns df) |} in
  batch_output (trace (batch_prediction L file)) = Some (out, to_csv L out) /\
  column_names out = column_names df /\
  (exists old, In ("Predicted FWI", old) (df_columns df)) /\
  (forall vals, In ("Predicted FWI", vals) (df_columns out) ->
                vals = map CFloat preds) /\
  (forall c, fst c <> "Predicted FWI" ->
             (In c (df_columns out) <-> In c (df_columns df))).
Proof.
  intros Hr Hs Hm Hlen Hcol out.
  assert (Ha : setitem df "Predicted FWI" (map CFloat preds) = Returned out).
  { rewrite setitem_aligned by now rewrite length_map.
    unfold set_column. unfold has_column, column_names in Hcol.
    now rewrite Hcol. }
  rewrite (batch_success file df out scaled preds Hr Hs Hm Ha).
  split; [reflexivity|]. subst out. unfold column_names. cbn [df_columns].
  repeat split.
  - rewrite map_map. apply map_ext. intros c.
    now destruct (String.eqb "Predicted FWI" (fst c)).
  - unfold has_column, column_names in Hcol.
    apply existsb_exists in Hcol. destruct Hcol as [k [Hk E]].
    apply String.eqb_eq in E. subst k.
    apply in_map_iff in Hk. destruct Hk as [[k old] [E Hin]].
    simpl in E. subst k. now exists old.
  - intros vals Hin. apply in_map_iff in Hin.
    destruct Hin as [c [E Hin]].
    destruct (String.eqb_spec "Predicted FWI" (fst c)) as [Ec|Ec].
    + now inversion E.
    + subst c. simpl in Ec. congruence.
  - intros Hin. apply in_map_iff in Hin. destruct Hin as [c' [E Hin]].
    destruct (String.eqb_spec "Predicted FWI" (fst c')) as [Ec|Ec].
    + subst c. simpl in H. congruence.
    + now subst c'.
  - intros Hin. apply in_map_iff. exists c. split; [|assumption].
    destruct (String.eqb_spec "Predicted FWI" (fst c)) as [Ec|Ec];
      [congruence|reflexivity].
Qed.

(** The single-record block, call by call. *)
Lemma single_cases (region : Z) (w : inputs) :
  let x := FromArray (input_data region w) in
  match scaler_transform L x with
  | Raised e =>
      single_prediction L region w = single_handler [ScalerTransform x] e
  | Returned scaled =>
      match model_predict L scaled with
      | Raised e =>
          single_prediction L region w =
            single_handler [ScalerTransform x; ModelPredict scaled] e
      | Returned [] =>
          single_prediction L region w =
            ([ScalerTransform x; ModelPredict scaled],
             Raised (mk_exn IndexError
                       "index 0 is out of bounds for axis 0 with size 0"))
      | Returned (v :: _) =>
          single_prediction L region w =
            ((ScalerTransform x :: ModelPredict scaled
                :: prediction_display L w v)%list,
             Returned tt)
      end
  end.
Proof.
  unfold single_prediction, call_scaler, call_model, single_handler,
    prediction_display, mismatch_messages.
  cbn zeta.
  destruct (scaler_transform L (FromArray (input_data region w)))
    as [scaled|e]; cbn.
  2: { unfold try_except; cbn. now destruct (isinstance_ValueError e). }
  destruct (model_predict L scaled) as [[|v rest]|e]; cbn.
  - reflexivity.
  - now destruct (report_clicked w).
  - unfold try_except; cbn. now destruct (isinstance_ValueError e).
Qed.

Lemma single_failure (region : Z) (w : inputs) (e : exn) :
  artifact_failure L (FromArray (input_data region w)) e ->
  exists calls,
    forallb is_call calls = true /\
    single_prediction L region w = single_handler calls e.
Proof.
  intros F. generalize (single_cases region w). cbn zeta.
  destruct F as [Hs|scaled Hs Hm]; rewrite Hs; [|rewrite Hm]; intros ->;
    eexists; split; try reflexivity; reflexivity.
Qed.

Lemma batch_never_raises (file : string) :
  outcome (batch_prediction L file) = Returned tt.
Proof.
  generalize (batch_cases file).
  destruct (read_csv L file) as [df|e]; cbn zeta; [|now intros ->].
  destruct (scaler_transform L (FromFrame df)) as [scaled|e];
    [|now intros ->].
  destruct (model_predict L scaled) as [preds|e]; [|now intros ->].
  destruct (setitem df "Predicted FWI" (map CFloat preds));
    now intros ->.
Qed.

Lemma history_and_footer_returns (w : inputs) :
  outcome (history_and_footer w) = Returned tt.
Proof. reflexivity. Qed.

(** Once the single-record block has returned, the run shows the rest of
    the page and returns. *)
Lemma script_after_single (w : inputs) (region : Z) :
  region_lookup (region_name w) = Returned region ->
  outcome (if predict_clicked w then single_prediction L region w
           else ret tt) = Returned tt ->
  outcome (script L w) = Returned tt /\
  exists batch,
    trace (script L w) =
      (page_top
         ++ trace (if predict_clicked w then single_prediction L region w
                   else ret tt)
         ++ batch ++ trace (history_and_footer w))%list.
Proof.
  intros Hr Hs. rewrite (script_unfold w region Hr).
  rewrite (bind_after_return _ tt _ Hs).
  assert (Hb : outcome (match uploaded_file w with
                        | Some file => batch_prediction L file
                        | None => ret tt
                        end) = Returned tt).
  { destruct (uploaded_file w); [apply batch_never_raises|reflexivity]. }
  rewrite (bind_after_return _ tt _ Hb).
  unfold after. cbn [trace outcome fst snd]. split; [reflexivity|].
  eexists. reflexivity.
Qed.

(** When the single-record block raises, so does the run, and nothing
    below the block is shown. *)
Lemma script_single_raises (w : inputs) (region : Z) (e : exn) :
  region_lookup (region_name w) = Returned region ->
  predict_clicked w = true ->
  outcome (single_prediction L region w) = Raised e ->
  outcome (script L w) = Raised e /\
  trace (script L w) = (page_top ++ trace (single_prediction L region w))%list.
Proof.
  intros Hr Hp Hs. rewrite (script_unfold w region Hr), Hp.
  rewrite (bind_after_raise _ e _ Hs). now unfold after.
Qed.

Lemma calls_are_not_errors (calls : list event) :
  forallb is_call calls = true -> filter is_error calls = [].
Proof.
  induction calls as [|ev calls IH]; simpl; [reflexivity|].
  intros H. apply andb_true_iff in H. destruct H as [Hc Hr].
  destruct ev; try discriminate; simpl; auto.
Qed.

(** C5. Two presses of Predict with the same region and the same eight
    readings look the region up alike, end alike (shown, reported as an
    input mismatch, or raised) and display the same things, the rounded
    prediction and the gauge among them, whatever else differs between
    the two runs (the upload, the report button, the clock, the random
    history). *)
Theorem C5_single_prediction_deterministic (region : Z) (w1 w2 : inputs) :
  same_readings w1 w2 ->
  region_lookup (region_name w1) = region_lookup (region_name w2) /\
  outcome (single_prediction L region w1) =
    outcome (single_prediction L region w2) /\
  displayed (trace (single_prediction L region w1)) =
    displayed (trace (single_prediction L region w2)).
Proof.
  intros (Hn & Ht & Hh & Hw & Hr & Hf & Hd & Hc & Hi).
  split; [now rewrite Hn|].
  assert (Hx : input_data region w1 = input_data region w2).
  { unfold input_data. congruence. }
  generalize (single_cases region w1), (single_cases region w2).
  cbn zeta. rewrite <- Hx.
  destruct (scaler_transform L (FromArray (input_data region w1)))
    as [scaled|e].
  - destruct (model_predict L scaled) as [[|v rest]|e];
      intros -> ->; split; try reflexivity.
    unfold prediction_display, displayed. cbn [trace fst].
    now destruct (report_clicked w1), (report_clicked w2).
  - intros -> ->. split; reflexivity.
Qed.

(** C6. When the scaler or the model rejects the record with a
    [ValueError], as they do for a wrong number of features, the block
    shows "Input mismatch: ..." and the hint about feature order and
    count and returns; the run then shows the rest of the page down to
    the footer and returns as well. *)
Theorem C6_input_mismatch_is_reported (w : inputs) (region : Z) (e : exn) :
  predict_clicked w = true ->
  region_lookup (region_name w) = Returned region ->
  artifact_failure L (FromArray (input_data region w)) e ->
  isinstance_ValueError e = true ->
  outcome (single_prediction L region w) = Returned tt /\
  (exists calls,
      forallb is_call calls = true /\
      trace (single_prediction L region w) =
        (calls
           ++ [StError ("Input mismatch: " ++ exn_str e);
               StInfo "Make sure the feature order and count match your training setup."])%list) /\
  outcome (script L w) = Returned tt /\
  (exists batch,
      trace (script L w) =
        (page_top ++ trace (single_prediction L region w)
           ++ batch ++ trace (history_and_footer w))%list).
Proof.
  intros Hp Hr F Hv.
  destruct (single_failure region w e F) as [calls [Hc Hs]].
  unfold single_handler in Hs. rewrite Hv in Hs.
  assert (Ho : outcome (single_prediction L region w) = Returned tt)
    by now rewrite Hs.
  split; [exact Ho|]. split.
  - exists calls. split; [exact Hc|]. now rewrite Hs.
  - generalize (script_after_single w region Hr). rewrite Hp.
    intros K. exact (K Ho).
Qed.

(** C9. An exception of the scaler or the model that is not a
    [ValueError] leaves the single-record block and the run: no error
    message is shown and the page stops there.  The same exception in
    the batch block is caught and shown. *)
Theorem C9_single_path_catches_only_ValueError
    (w : inputs) (region : Z) (e : exn) :
  predict_clicked w = true ->
  region_lookup (region_name w) = Returned region ->
  artifact_failure L (FromArray (input_data region w)) e ->
  isinstance_ValueError e = false ->
  outcome (script L w) = Raised e /\
  filter is_error (trace (script L w)) = [] /\
  (exists calls,
      forallb is_call calls = true /\
      trace (script L w) = (page_top ++ calls)%list) /\
  (forall file df,
      read_csv L file = Returned df ->
      artifact_failure L (FromFrame df) e ->
      outcome (batch_prediction L file) = Returned tt /\
      In (StError ("Error processing file: " ++ exn_str e))
         (trace (batch_prediction L file))).
Proof.
  intros Hp Hr F Hv.
  destruct (single_failure region w e F) as [calls [Hc Hs]].
  unfold single_handler in Hs. rewrite Hv in Hs.
  assert (Ho : outcome (single_prediction L region w) = Raised e)
    by now rewrite Hs.
  destruct (script_single_raises w region e Hr Hp Ho) as [Hso Hst].
  rewrite Hs in Hst. cbn [trace fst] in Hst.
  split; [exact Hso|]. split; [|split].
  - rewrite Hst, filter_app, (calls_are_not_errors calls Hc). reflexivity.
  - now exists calls.
  - intros file df Hf Fb. split; [apply batch_never_raises|].
    generalize (batch_cases file). rewrite Hf. cbn zeta.
    destruct Fb as [Hs'|scaled Hs' Hm']; rewrite Hs'; [|rewrite Hm'];
      intros ->; cbn [trace fst]; simpl; tauto.
Qed.

(** C7. Whatever is raised while the uploaded file is read, scaled,
    predicted or given its new column is caught: the block ends with
    "Error processing file: ..." and returns, no download button is
    shown, and the only table on the page is the preview of the file as
    it was read; no table with predictions is shown. *)
Theorem C7_batch_errors_are_caught (file : string) (e : exn) :
  batch_failure L file e ->
  outcome (batch_prediction L file) = Returned tt /\
  (exists shown,
      trace (batch_prediction L file) =
        (shown ++ [StError ("Error processing file: " ++ exn_str e)])%list) /\
  filter is_download (trace (batch_prediction L file)) = [] /\
  batch_output (trace (batch_prediction L file)) = None /\
  ~ In (Subheader "✅ Batch Predictions") (trace (batch_prediction L file)) /\
  (forall t, In (StDataframe t) (trace (batch_prediction L file)) ->
             exists df, read_csv L file = Returned df /\ t = head df).
Proof.
  intros F. split; [apply batch_never_raises|].
  generalize (batch_cases file).
  destruct F as [Hr|df Hr [Hs|scaled Hs Hm]|df scaled preds Hr Hs Hm Ha];
    rewrite Hr; cbn zeta;
    try rewrite Hs; try rewrite Hm; try rewrite Ha;
    intros ->; cbn [trace fst];
    (split; [match goal with
             | |- exists shown, ?T = _ => exists (removelast T); reflexivity
             end|]);
    (split; [reflexivity|]); (split; [reflexivity|]);
    (split; [simpl; intuition discriminate|]);
    intros t Hin; simpl in Hin;
    repeat match goal with
           | H : _ \/ _ |- _ => destruct H
           | H : False |- _ => destruct H
           | H : _ = StDataframe _ |- _ => inversion H; subst; clear H
           end;
    eexists; split; reflexivity.
Qed.

(** The report names the region and every reading, each on its line
    after its label, and the prediction with two decimals. *)
Lemma report_contents (w : inputs) (v : float) :
  contains (report L w v) ("Region: " ++ region_name w) /\
  contains (report L w v) ("Temperature: " ++ str_float L (temp w) ++ " °C") /\
  contains (report L w v) ("Humidity: " ++ str_float L (RH w) ++ " %") /\
  contains (report L w v) ("Wind Speed: " ++ str_float L (Ws w) ++ " km/h") /\
  contains (report L w v) ("Rain: " ++ str_float L (Rain w) ++ " mm") /\
  contains (report L w v) ("FFMC: " ++ str_float L (FFMC w)) /\
  contains (report L w v) ("DMC: " ++ str_float L (DMC w)) /\
  contains (report L w v) ("DC: " ++ str_float L (DC w)) /\
  contains (report L w v) ("ISI: " ++ str_float L (ISI w)) /\
  contains (report L w v) ("Predicted FWI: " ++ PyFloat.format_2f v) /\
  contains (report L w v)
    (nl ++ indent ++ "Predicted FWI: " ++ PyFloat.format_2f v ++ nl).
Proof.
  unfold report. repeat split; find_fragments.
Qed.

(** C8, amended. After a successful prediction the page shows
    "Estimated FWI: **x**" where x is the prediction under the format
    [.2f]: for a finite prediction x ends in a point and two digits and
    reads as a number within half a hundredth of the prediction; for a NaN
    or an infinite one x is "nan", "inf" or "-inf".  The report the script
    builds from the inputs and the prediction holds, for region Bejaia,
    "Region: Bejaia", and for any region every reading after its label and
    the line "Predicted FWI: x"; when the block offers a report to
    download, it is that one. *)
Theorem C8_display_and_report (w : inputs) (region : Z)
    (scaled : ndarray) (v : float) (rest : list float) :
  scaler_transform L (FromArray (input_data region w)) = Returned scaled ->
  model_predict L scaled = Returned (v :: rest) ->
  In (StSuccess ("Estimated FWI: **" ++ PyFloat.format_2f v ++ "**"))
     (trace (single_prediction L region w)) /\
  (PyFloat.is_finite v = true ->
   two_decimals (PyFloat.format_2f v) /\
   exists q x,
     PyFloat.exact_value v = Some q /\
     read_fixed2 (PyFloat.format_2f v) = Some x /\
     (Qabs (q - x) <= 1 # 200)%Q) /\
  (PyFloat.is_finite v = false ->
   PyFloat.format_2f v = "nan" \/ PyFloat.format_2f v = "inf"
   \/ PyFloat.format_2f v = "-inf") /\
  (region_name w = "Bejaia" -> contains (report L w v) "Region: Bejaia") /\
  contains (report L w v)
    (nl ++ indent ++ "Predicted FWI: " ++ PyFloat.format_2f v ++ nl) /\
  contains (report L w v) ("Temperature: " ++ str_float L (temp w) ++ " °C") /\
  contains (report L w v) ("Humidity: " ++ str_float L (RH w) ++ " %") /\
  contains (report L w v) ("Wind Speed: " ++ str_float L (Ws w) ++ " km/h") /\
  contains (report L w v) ("Rain: " ++ str_float L (Rain w) ++ " mm") /\
  contains (report L w v) ("FFMC: " ++ str_float L (FFMC w)) /\
  contains (report L w v) ("DMC: " ++ str_float L (DMC w)) /\
  contains (report L w v) ("DC: " ++ str_float L (DC w)) /\
  contains (report L w v) ("ISI: " ++ str_float L (ISI w)) /\
  (forall data file_name mime,
      In (DownloadButton "Download Report" data file_name mime)
         (trace (single_prediction L region w)) ->
      data = report L w v).
Proof.
  intros Hs Hm.
  generalize (single_cases region w). cbn zeta. rewrite Hs, Hm.
  intros ->. unfold prediction_display. cbn [trace fst].
  destruct (report_contents w v)
    as (Rg & Rt & Rh & Rw & Rr & Rf & Rm & Rc & Ri & _ & Rp).
  split; [simpl; tauto|]. split; [apply format_2f_rounds|]. split.
  { destruct v as [s|s| |s m e]; cbn [PyFloat.is_finite PyFloat.format_2f];
      try discriminate; intros _; [destruct s|]; auto. }
  split; [intros Hreg; now rewrite Hreg in Rg|].
  repeat (split; [assumption|]).
  intros data file_name mime Hin.
  destruct (report_clicked w); cbn [app In] in Hin;
    repeat match goal with
           | H : _ \/ _ |- _ => destruct H
           | H : False |- _ => destruct H
           end; try discriminate.
  congruence.
Qed.

End Claims.

(** ** Runs on concrete inputs *)

Lemma C1_witness :
  first_scaler_call
    (trace (script (Demo.libs 9) (Demo.form true false None))) =
  Some (FromArray [Demo.default_row]).
Proof.
  apply (proj1 (C1_feature_vector_order (Demo.libs 9))
           (Demo.form true false None) 1); reflexivity.
Defined.


(** The claim C4 as it is written fails on an upload that already has a
    column named "Predicted FWI": the batch run succeeds, the table it
    shows is not the upload with one column appended, and the value 5 the
    upload had in that column is gone. *)
Lemma C4_counterexample :
  read_csv (Demo.libs 9) Demo.csv_clash = Returned Demo.df_clash /\
  exists out data,
    batch_output (trace (batch_prediction (Demo.libs 9) Demo.csv_clash)) =
      Some (out, data) /\
    ~ (exists col, df_columns out = (df_columns Demo.df_clash ++ [col])%list) /\
    In ("Predicted FWI", [CInt 5]) (df_columns Demo.df_clash) /\
    ~ In ("Predicted FWI", [CInt 5]) (df_columns out).
Proof.
  split; [reflexivity|].
  eexists. eexists. split; [vm_compute; reflexivity|].
  split; [|split].
  - intros [col H]. apply (f_equal (@List.length _)) in H.
    rewrite length_app in H. simpl in H. discriminate.
  - simpl. tauto.
  - simpl. intros H.
    repeat match goal with
           | H : _ \/ _ |- _ => destruct H
           | H : False |- _ => destruct H
           | H : (_, _) = (_, _) |- _ => discriminate H
           end.
Qed.

Lemma C4_witness :
  batch_output (trace (batch_prediction (Demo.libs 9) Demo.csv_ok)) =
  Some
    ({| df_nrows := 1;
        df_columns :=
          (df_columns Demo.df_ok
             ++ [("Predicted FWI", [CFloat (PyFloat.of_Z 25)])])%list |},
     Demo.writer
       {| df_nrows := 1;
          df_columns :=
            (df_columns Demo.df_ok
               ++ [("Predicted FWI", [CFloat (PyFloat.of_Z 25)])])%list |}).
Proof.
  apply (C4_batch_appends_column (Demo.libs 9) Demo.csv_ok Demo.df_ok
           [Demo.default_row] [PyFloat.of_Z 25]); reflexivity.
Defined.

Lemma C5_witness :
  outcome (single_prediction (Demo.libs 9) 1 (Demo.form true false None)) =
    outcome (single_prediction (Demo.libs 9) 1
               (Demo.form true true (Some Demo.csv_ok))) /\
  displayed
    (trace (single_prediction (Demo.libs 9) 1 (Demo.form true false None))) =
    displayed
      (trace (single_prediction (Demo.libs 9) 1
                (Demo.form true true (Some Demo.csv_ok)))).
Proof.
  apply (C5_single_prediction_deterministic (Demo.libs 9) 1
           (Demo.form true false None)
           (Demo.form true true (Some Demo.csv_ok))).
  repeat split.
Defined.

Lemma C6_witness :
  outcome (script (Demo.libs 8) (Demo.form true false None)) = Returned tt /\
  In (StError ("Input mismatch: " ++ exn_str Demo.eight_expected))
     (trace (single_prediction (Demo.libs 8) 1 (Demo.form true false None))).
Proof.
  destruct (C6_input_mismatch_is_reported (Demo.libs 8)
              (Demo.form true false None) 1 Demo.eight_expected)
    as (_ & (calls & _ & Ht) & Ho & _).
  - reflexivity.
  - reflexivity.
  - apply scaler_fails. reflexivity.
  - reflexivity.
  - split; [exact Ho|]. rewrite Ht. apply in_or_app. right. simpl. tauto.
Defined.

Lemma C7_witness :
  outcome (batch_prediction (Demo.libs 9) "not a table") = Returned tt /\
  batch_output (trace (batch_prediction (Demo.libs 9) "not a table")) = None.
Proof.
  destruct (C7_batch_errors_are_caught (Demo.libs 9) "not a table"
              (mk_exn ValueError "Error tokenizing data"))
    as (Ho & _ & _ & Hb & _).
  - apply read_fails. reflexivity.
  - split; [exact Ho|exact Hb].
Defined.

(** The claim C8 as it is written fails for a model that answers NaN: the
    prediction succeeds and the page shows "Estimated FWI: **nan**", which
    has no decimals and reads as no number. *)
Lemma C8_counterexample :
  outcome (single_prediction Demo.nan_libs 1 (Demo.form true false None)) =
    Returned tt /\
  In (StSuccess "Estimated FWI: **nan**")
     (trace (single_prediction Demo.nan_libs 1 (Demo.form true false None))) /\
  ~ two_decimals "nan" /\
  read_fixed2 "nan" = None.
Proof.
  split; [reflexivity|]. split; [vm_compute; tauto|].
  split; [|reflexivity]. intros (c1 & c2 & H & _). discriminate H.
Qed.

Lemma C8_witness :
  In (StSuccess "Estimated FWI: **25.00**")
     (trace (single_prediction (Demo.libs 9) 1 (Demo.form true true None))) /\
  two_decimals "25.00" /\
  contains
    (report (Demo.libs 9) (Demo.form true true None) (PyFloat.of_Z 25))
    "Region: Bejaia" /\
  contains
    (report (Demo.libs 9) (Demo.form true true None) (PyFloat.of_Z 25))
    (nl ++ indent ++ "Predicted FWI: 25.00" ++ nl).
Proof.
  destruct (C8_display_and_report (Demo.libs 9) (Demo.form true true None) 1
              [Demo.default_row] (PyFloat.of_Z 25) [])
    as (Hs & Hf & _ & Hr & Hp & _).
  - reflexivity.
  - reflexivity.
  - split; [exact Hs|]. split; [exact (proj1 (Hf eq_refl))|].
    split; [exact (Hr eq_refl)|exact Hp].
Defined.

Lemma C9_witness :
  outcome (script Demo.broken_libs (Demo.form true false None)) =
    Raised Demo.no_predict /\
  filter is_error (trace (script Demo.broken_libs (Demo.form true false None))) = [].
Proof.
  destruct (C9_single_path_catches_only_ValueError Demo.broken_libs
              (Demo.form true false None) 1 Demo.no_predict)
    as (Ho & He & _).
  - reflexivity.
  - reflexivity.
  - apply (model_fails _ _ _ [Demo.default_row]); reflexivity.
  - reflexivity.
  - split; [exact Ho|exact He].
Defined.

Lemma C10_witness :
  exists out,
    batch_output (trace (batch_prediction (Demo.libs 9) Demo.csv_clash)) =
      Some (out, Demo.writer out) /\
    column_names out = column_names Demo.df_clash /\
    forall vals, In ("Predicted FWI", vals) (df_columns out) ->
                 vals = [CFloat (PyFloat.of_Z 25)].
Proof.
  destruct (C10_existing_column_overwritten (Demo.libs 9) Demo.csv_clash
              Demo.df_clash [Demo.default_row] [PyFloat.of_Z 25])
    as (Hb & Hn & _ & Hv & _); try reflexivity.
  eexists. split; [exact Hb|]. split; [exact Hn|exact Hv].
Defined.

(** ** Further properties of the script *)

Section Behaviour.

Variable L : Libs.

(** A run whose region lookup fails stops in the sidebar. *)
Lemma script_lookup_fails (w : inputs) (e : exn) :
  region_lookup (region_name w) = Raised e ->
  script L w =
    ([SetPageConfig "FWI Predictor" "🔥" "wide"; Markdown hero true;
      SidebarHeader "🌍 Region Selection"],
     Raised e).
Proof. intros H. unfold script. now rewrite H. Qed.

(** A run whose region lookup succeeds, by the end of its single-record
    block. *)
Lemma script_cases (w : inputs) (region : Z) :
  region_lookup (region_name w) = Returned region ->
  match outcome (single_block L region w) with
  | Returned _ =>
      script L w =
        ((page_top ++ trace (single_block L region w)
            ++ trace (batch_block L w) ++ trace (history_and_footer w))%list,
         Returned tt)
  | Raised e =>
      script L w =
        ((page_top ++ trace (single_block L region w))%list, Raised e)
  end.
Proof.
  intros Hr. rewrite (script_unfold L w region Hr).
  fold (single_block L region w). fold (batch_block L w).
  destruct (outcome (single_block L region w)) as [[]|e] eqn:Hs.
  - rewrite (bind_after_return _ tt _ Hs).
    assert (Hb : outcome (batch_block L w) = Returned tt).
    { unfold batch_block.
      destruct (uploaded_file w); [apply batch_never_raises|reflexivity]. }
    rewrite (bind_after_return _ tt _ Hb). unfold after.
    cbn [trace outcome fst snd]. reflexivity.
  - rewrite (bind_after_raise _ e _ Hs). reflexivity.
Qed.

Lemma lookup_cases (name : string) :
  (exists region, region_lookup name = Returned region) \/
  region_lookup name = Raised (mk_exn KeyError (py_repr name)).
Proof.
  unfold region_lookup. destruct (dict_get region_map name); eauto.
Qed.

(** X1. In the single-record block the scaler is called once, on the record of
    the form, and the model only when the scaler has returned, once, on
    what the scaler returned. *)
Theorem single_prediction_calls (region : Z) (w : inputs) :
  filter is_call (trace (single_prediction L region w)) =
    match scaler_transform L (FromArray (input_data region w)) with
    | Raised _ => [ScalerTransform (FromArray (input_data region w))]
    | Returned scaled =>
        [ScalerTransform (FromArray (input_data region w));
         ModelPredict scaled]
    end.
Proof.
  generalize (single_cases L region w). cbn zeta.
  destruct (scaler_transform L (FromArray (input_data region w)))
    as [scaled|e].
  - destruct (model_predict L scaled) as [[|v rest]|e]; intros ->.
    + reflexivity.
    + unfold prediction_display. now destruct (report_clicked w).
    + unfold single_handler. now destruct (isinstance_ValueError e).
  - intros ->. unfold single_handler. now destruct (isinstance_ValueError e).
Qed.

(** X2. In the batch block nothing is called when the file does not parse;
    otherwise the scaler is called once, on the table as read, and the
    model only when the scaler has returned, once, on what it returned. *)
Theorem batch_prediction_calls (file : string) :
  filter is_call (trace (batch_prediction L file)) =
    match read_csv L file with
    | Raised _ => []
    | Returned df =>
        match scaler_transform L (FromFrame df) with
        | Raised _ => [ScalerTransform (FromFrame df)]
        | Returned scaled => [ScalerTransform (FromFrame df); ModelPredict scaled]
        end
    end.
Proof.
  generalize (batch_cases L file).
  destruct (read_csv L file) as [df|e]; cbn zeta; [|now intros ->].
  destruct (scaler_transform L (FromFrame df)) as [scaled|e];
    [|now intros ->].
  destruct (model_predict L scaled) as [preds|e]; [|now intros ->].
  destruct (setitem df "Predicted FWI" (map CFloat preds)); now intros ->.
Qed.

(** X3. A run calls the artifacts only when Predict was pressed or an uploaded
    file could be read. *)
Theorem artifacts_idle_iff (w : inputs) (region : Z) :
  region_lookup (region_name w) = Returned region ->
  (filter is_call (trace (script L w)) = [] <->
   predict_clicked w = false /\
   match uploaded_file w with
   | None => True
   | Some file => exists e, read_csv L file = Raised e
   end).
Proof.
  intros Hr. generalize (script_cases w region Hr).
  unfold single_block, batch_block.
  destruct (predict_clicked w).
  - (* pressed: the scaler is called *)
    assert (N : filter is_call (trace (single_prediction L region w)) <> []).
    { destruct (single_prediction_first_call L w region) as [rest ->].
      discriminate. }
    destruct (outcome (single_prediction L region w)) as [[]|e]; intros ->;
      cbn [trace fst]; rewrite !filter_app; cbn [page_top filter is_call];
      (split; [intros H; exfalso; apply N | intros [[=] _]]).
    + cbn [app] in H. now destruct (app_eq_nil _ _ H).
    + cbn [app] in H. exact H.
  - cbn [outcome ret snd]. intros ->. cbn [trace fst ret].
    rewrite !filter_app. cbn [page_top filter is_call app].
    destruct (uploaded_file w) as [file|].
    + generalize (batch_cases L file).
      destruct (read_csv L file) as [df|e]; cbn zeta.
      * intros K. split; [|intros [_ [e [=]]]].
        destruct (scaler_transform L (FromFrame df)) as [scaled|e];
          [destruct (model_predict L scaled) as [preds|e];
           [destruct (setitem df "Predicted FWI" (map CFloat preds))|]|];
          rewrite K; discriminate.
      * intros ->.
        split; [intros _; split; [reflexivity|now exists e]|reflexivity].
    + split; [intros _; split; [reflexivity|exact I]|reflexivity].
Qed.

(** When the single-record block raises. *)
Lemma single_raises_iff (region : Z) (w : inputs) (e : exn) :
  outcome (single_prediction L region w) = Raised e <->
  (artifact_failure L (FromArray (input_data region w)) e /\
   isinstance_ValueError e = false) \/
  (exists scaled,
      scaler_transform L (FromArray (input_data region w)) = Returned scaled /\
      model_predict L scaled = Returned [] /\
      e = mk_exn IndexError "index 0 is out of bounds for axis 0 with size 0").
Proof.
  generalize (single_cases L region w). cbn zeta.
  destruct (scaler_transform L (FromArray (input_data region w)))
    as [scaled|e0] eqn:Hs.
  - destruct (model_predict L scaled) as [[|v rest]|e0] eqn:Hm; intros ->.
    + cbn [outcome snd]. split.
      * intros [= <-]. right. exists scaled. auto.
      * intros [[[F|s F1 F2] _]|(s & [= <-] & _ & ->)];
          [congruence|congruence|reflexivity].
    + cbn [outcome snd]. split; [discriminate|].
      intros [[[F|s F1 F2] _]|(s & [= <-] & F & _)]; congruence.
    + unfold single_handler.
      destruct (isinstance_ValueError e0) eqn:Hv; cbn [outcome snd]; split.
      * discriminate.
      * intros [[[F|s F1 F2] Hv']|(s & [= <-] & F & _)]; congruence.
      * intros [= <-]. left. split; [|exact Hv].
        now apply (model_fails L _ _ scaled).
      * intros [[[F|s F1 F2] Hv']|(s & [= <-] & F & _)]; congruence.
  - intros ->. unfold single_handler.
    destruct (isinstance_ValueError e0) eqn:Hv; cbn [outcome snd]; split.
    + discriminate.
    + intros [[[F|s F1 F2] Hv']|(s & F & _)]; congruence.
    + intros [= <-]. left. split; [|exact Hv]. now apply scaler_fails.
    + intros [[[F|s F1 F2] Hv']|(s & F & _)]; congruence.
Qed.

(** X4. With Predict not pressed and a region among the options, a run
    returns whatever file was uploaded and whatever the artifacts and the
    CSV reader do with it: the batch block lets no exception out. *)
Theorem upload_never_aborts (w : inputs) :
  predict_clicked w = false ->
  In (region_name w) region_options ->
  outcome (script L w) = Returned tt /\
  trace (script L w) =
    (page_top ++ trace (batch_block L w)
       ++ trace (history_and_footer w))%list.
Proof.
  intros Hp Hin.
  assert (Hr : exists region, region_lookup (region_name w) = Returned region).
  { simpl in Hin. destruct Hin as [<-|[<-|[]]]; eexists; reflexivity. }
  destruct Hr as [region Hr].
  generalize (script_cases w region Hr). unfold single_block. rewrite Hp.
  cbn [outcome ret snd trace fst app]. intros ->. split; reflexivity.
Qed.

(** Once the artifacts are loaded, the page ends in an uncaught exception
    in three ways only: the region is not in the map ([KeyError]); Predict
    was pressed and the scaler or the model raised something that is not a
    [ValueError]; Predict was pressed and the model answered an empty
    array ([IndexError]). *)
Lemma script_raises_iff (w : inputs) (e : exn) :
  outcome (script L w) = Raised e <->
  region_lookup (region_name w) = Raised e \/
  (exists region,
      region_lookup (region_name w) = Returned region /\
      predict_clicked w = true /\
      ((artifact_failure L (FromArray (input_data region w)) e /\
        isinstance_ValueError e = false) \/
       (exists scaled,
           scaler_transform L (FromArray (input_data region w)) =
             Returned scaled /\
           model_predict L scaled = Returned [] /\
           e = mk_exn IndexError
                 "index 0 is out of bounds for axis 0 with size 0"))).
Proof.
  destruct (lookup_cases (region_name w)) as [[region Hr]|Hr].
  - generalize (script_cases w region Hr). unfold single_block.
    destruct (predict_clicked w) eqn:Hp.
    + destruct (outcome (single_prediction L region w)) as [[]|e0] eqn:Ho;
        intros ->; cbn [outcome snd]; split.
      * discriminate.
      * intros [H|(r & Hr' & _ & H)]; [congruence|].
        rewrite Hr in Hr'. injection Hr' as <-.
        apply single_raises_iff in H. congruence.
      * intros [= <-]. right. exists region. split; [exact Hr|].
        split; [reflexivity|]. now apply single_raises_iff.
      * intros [H|(r & Hr' & _ & H)]; [congruence|].
        rewrite Hr in Hr'. injection Hr' as <-.
        apply single_raises_iff in H. congruence.
    + cbn [outcome ret snd]. intros ->. cbn [outcome snd]. split.
      * discriminate.
      * intros [H|(r & _ & [=] & _)]. congruence.
  - rewrite (script_lookup_fails w _ Hr). cbn [outcome snd]. split.
    + intros [= <-]. now left.
    + intros [H|(r & H & _)]; congruence.
Qed.

(** Splits a membership in an explicit list of events into its cases and
    drops the impossible ones. *)
Ltac in_events H :=
  cbn [In app] in H;
  repeat match goal with
         | K : _ \/ _ |- _ => destruct K
         | K : False |- _ => destruct K
         end;
  try discriminate.

Lemma calls_only_no_member (calls : list event) (ev : event) :
  forallb is_call calls = true -> is_call ev = false -> ~ In ev calls.
Proof.
  intros Hc He Hin. rewrite forallb_forall in Hc.
  specialize (Hc ev Hin). congruence.
Qed.

(** A single-record block that raised has shown nothing: its events are
    the calls it made. *)
Lemma single_raised_trace (region : Z) (w : inputs) (e : exn) :
  outcome (single_prediction L region w) = Raised e ->
  forallb is_call (trace (single_prediction L region w)) = true.
Proof.
  generalize (single_cases L region w). cbn zeta.
  destruct (scaler_transform L (FromArray (input_data region w)))
    as [scaled|e0];
    [destruct (model_predict L scaled) as [[|v rest]|e0]|]; intros ->;
    unfold single_handler; try destruct (isinstance_ValueError e0);
    cbn [outcome snd trace fst]; try discriminate; reflexivity.
Qed.

Lemma single_block_raised_trace (region : Z) (w : inputs) (e : exn) :
  outcome (single_block L region w) = Raised e ->
  predict_clicked w = true /\
  forallb is_call (trace (single_block L region w)) = true.
Proof.
  unfold single_block. destruct (predict_clicked w); [|discriminate].
  intros H. split; [reflexivity|]. exact (single_raised_trace region w e H).
Qed.

(** X6. The footer is on the page exactly in the runs that return: a run that
    ends in an uncaught exception stops above it. *)
Theorem footer_iff_returns (w : inputs) :
  In (Markdown footer true) (trace (script L w)) <->
  outcome (script L w) = Returned tt.
Proof.
  destruct (lookup_cases (region_name w)) as [[region Hr]|Hr].
  - generalize (script_cases w region Hr).
    destruct (outcome (single_block L region w)) as [[]|e] eqn:Ho; intros ->.
    + cbn [trace outcome fst snd]. split; [reflexivity|]. intros _.
      apply in_or_app. right. apply in_or_app. right.
      apply in_or_app. right. simpl. tauto.
    + cbn [trace outcome fst snd]. split; [|discriminate].
      intros Hin. exfalso. apply in_app_or in Hin. destruct Hin as [Hin|Hin].
      * unfold page_top in Hin. in_events Hin.
      * destruct (single_block_raised_trace region w e Ho) as [_ Hc].
        now apply (calls_only_no_member _ _ Hc) in Hin.
  - rewrite (script_lookup_fails w _ Hr). cbn [trace outcome fst snd].
    split; [|discriminate]. intros Hin. exfalso. in_events Hin.
Qed.

(** X7. When the model answers an empty array for the record of the form,
    indexing it raises an [IndexError], which [except ValueError] does not
    catch: the run ends there, having shown neither a prediction nor an
    error message. *)
Theorem empty_prediction_aborts (w : inputs) (region : Z) (scaled : ndarray) :
  predict_clicked w = true ->
  region_lookup (region_name w) = Returned region ->
  scaler_transform L (FromArray (input_data region w)) = Returned scaled ->
  model_predict L scaled = Returned [] ->
  exists e,
    outcome (script L w) = Raised e /\
    exn_cls e = IndexError /\
    trace (script L w) =
      (page_top ++ [ScalerTransform (FromArray (input_data region w));
                    ModelPredict scaled])%list /\
    filter is_success (trace (script L w)) = [] /\
    filter is_error (trace (script L w)) = [].
Proof.
  intros Hp Hr Hs Hm.
  pose proof (single_cases L region w) as E. cbn zeta in E.
  rewrite Hs, Hm in E.
  pose proof (script_cases w region Hr) as K. unfold single_block in K.
  rewrite Hp, E in K. cbn [outcome snd trace fst] in K. rewrite K.
  eexists. split; [reflexivity|]. repeat split.
Qed.

(** The batch block never shows the button of the report. *)
Lemma batch_has_no_report_button (file : string) :
  filter is_report_button (trace (batch_prediction L file)) = [].
Proof.
  generalize (batch_cases L file).
  destruct (read_csv L file) as [df|e]; cbn zeta; [|now intros ->].
  destruct (scaler_transform L (FromFrame df)) as [scaled|e];
    [|now intros ->].
  destruct (model_predict L scaled) as [preds|e]; [|now intros ->].
  destruct (setitem df "Predicted FWI" (map CFloat preds)); now intros ->.
Qed.

Lemma filter_nil_no_member (f : event -> bool) (t : list event) (ev : event) :
  filter f t = [] -> f ev = true -> ~ In ev t.
Proof.
  intros Hf He Hin.
  assert (K : In ev (filter f t)) by (apply filter_In; auto).
  rewrite Hf in K. exact K.
Qed.

(** What the single-record block has shown when a success message or the
    button of the report is among its events. *)
Lemma single_shows_prediction (region : Z) (w : inputs) (ev : event) :
  In ev (trace (single_prediction L region w)) ->
  is_success ev = true \/ is_report_button ev = true ->
  exists scaled v rest,
    scaler_transform L (FromArray (input_data region w)) = Returned scaled /\
    model_predict L scaled = Returned (v :: rest) /\
    trace (single_prediction L region w) =
      (ScalerTransform (FromArray (input_data region w))
         :: ModelPredict scaled :: prediction_display L w v)%list /\
    outcome (single_prediction L region w) = Returned tt.
Proof.
  generalize (single_cases L region w). cbn zeta.
  destruct (scaler_transform L (FromArray (input_data region w)))
    as [scaled|e0] eqn:Hs;
    [destruct (model_predict L scaled) as [[|v rest]|e0] eqn:Hm|]; intros ->;
    unfold single_handler, mismatch_messages;
    try destruct (isinstance_ValueError e0);
    cbn [trace fst]; intros Hin Hev;
    first
      [ solve [exists scaled, v, rest; repeat split; assumption]
      | exfalso; in_events Hin; subst ev; simpl in *; discriminate ].
Qed.

(** X8. The button of the report is offered only in a run where Predict and
    the report button both returned True and the scaler and the model both
    returned; the report behind it is the one of the inputs of that run and
    of the first value the model answered, the value of the success
    message of the same run. *)
Theorem report_only_after_prediction
    (w : inputs) (data file_name mime : string) :
  In (DownloadButton "Download Report" data file_name mime)
     (trace (script L w)) ->
  predict_clicked w = true /\
  report_clicked w = true /\
  exists region scaled v rest,
    region_lookup (region_name w) = Returned region /\
    scaler_transform L (FromArray (input_data region w)) = Returned scaled /\
    model_predict L scaled = Returned (v :: rest) /\
    data = report L w v /\
    In (StSuccess ("Estimated FWI: **" ++ PyFloat.format_2f v ++ "**"))
       (trace (script L w)).
Proof.
  intros Hin.
  destruct (lookup_cases (region_name w)) as [[region Hr]|Hr].
  2: { rewrite (script_lookup_fails w _ Hr) in Hin. cbn [trace fst] in Hin.
       exfalso. in_events Hin. }
  pose proof (script_cases w region Hr) as K.
  assert (Hs : In (DownloadButton "Download Report" data file_name mime)
                  (trace (single_block L region w))).
  { destruct (outcome (single_block L region w)) as [[]|e]; rewrite K in Hin;
      cbn [trace fst] in Hin; apply in_app_or in Hin;
      destruct Hin as [Hin|Hin];
      try (exfalso; unfold page_top in Hin; in_events Hin; fail);
      try exact Hin.
    apply in_app_or in Hin. destruct Hin as [Hin|Hin]; [exact Hin|].
    exfalso. apply in_app_or in Hin. destruct Hin as [Hin|Hin].
    - unfold batch_block in Hin. destruct (uploaded_file w) as [file|].
      + revert Hin. apply (filter_nil_no_member is_report_button);
          [apply batch_has_no_report_button|reflexivity].
      + exact Hin.
    - simpl in Hin. in_events Hin. }
  unfold single_block in Hs, K.
  destruct (predict_clicked w); [|destruct Hs].
  destruct (single_shows_prediction region w _ Hs (or_intror eq_refl))
    as (scaled & v & rest & Hsc & Hm & Ht & Ho).
  rewrite Ho in K. rewrite Ht in Hs. unfold prediction_display in Hs.
  split; [reflexivity|].
  destruct (report_clicked w) eqn:Hrep.
  - split; [reflexivity|]. exists region, scaled, v, rest.
    split; [exact Hr|]. split; [exact Hsc|]. split; [exact Hm|]. split.
    + in_events Hs. congruence.
    + rewrite K, Ht. cbn [trace fst]. apply in_or_app. right.
      simpl. tauto.
  - exfalso. in_events Hs.
Qed.

(** X9. A success message is on the page only when the scaler and the model
    both returned; it then shows the first value the model answered, with
    two decimals, and the gauge below it points at that same value. *)
Theorem success_message_matches_gauge (w : inputs) (region : Z) (msg : string) :
  In (StSuccess msg) (trace (single_prediction L region w)) ->
  exists scaled v rest,
    scaler_transform L (FromArray (input_data region w)) = Returned scaled /\
    model_predict L scaled = Returned (v :: rest) /\
    msg = "Estimated FWI: **" ++ PyFloat.format_2f v ++ "**" /\
    In (PlotlyChart (Gauge (gauge v))) (trace (single_prediction L region w)) /\
    ind_value (gauge v) = v /\
    filter is_error (trace (single_prediction L region w)) = [].
Proof.
  intros Hin.
  destruct (single_shows_prediction region w _ Hin (or_introl eq_refl))
    as (scaled & v & rest & Hsc & Hm & Ht & _).
  exists scaled, v, rest. split; [exact Hsc|]. split; [exact Hm|].
  rewrite Ht in *. unfold prediction_display in *.
  destruct (report_clicked w); in_events Hin;
    (split; [congruence|]); (split; [simpl; tauto|]); split; reflexivity.
Qed.

(** *** The assignment of a column *)

Lemma set_column_names (key : string) (vals : list cell)
    (cols : list (string * list cell)) :
  map fst (set_column key vals cols) =
    if existsb (String.eqb key) (map fst cols)
    then map fst cols
    else (map fst cols ++ [key])%list.
Proof.
  unfold set_column. destruct (existsb (String.eqb key) (map fst cols)).
  - rewrite map_map. apply map_ext. intros c.
    now destruct (String.eqb key (fst c)).
  - now rewrite map_app.
Qed.

Lemma set_column_has (key : string) (vals : list cell)
    (cols : list (string * list cell)) :
  existsb (String.eqb key) (map fst (set_column key vals cols)) = true.
Proof.
  rewrite set_column_names.
  destruct (existsb (String.eqb key) (map fst cols)) eqn:E; [exact E|].
  rewrite existsb_app. simpl. rewrite String.eqb_refl.
  now rewrite orb_true_r.
Qed.

Lemma set_column_values (key : string) (vals v : list cell)
    (cols : list (string * list cell)) :
  In (key, v) (set_column key vals cols) -> v = vals.
Proof.
  unfold set_column.
  destruct (existsb (String.eqb key) (map fst cols)) eqn:E; intros Hin.
  - apply in_map_iff in Hin. destruct Hin as [c [Hc _]].
    destruct (String.eqb_spec key (fst c)) as [Ek|Ek].
    + now inversion Hc.
    + subst c. now elim Ek.
  - apply in_app_or in Hin. destruct Hin as [Hin|[Hin|[]]].
    + exfalso. assert (K : existsb (String.eqb key) (map fst cols) = true).
      { apply existsb_exists. exists key. split; [|apply String.eqb_refl].
        apply in_map_iff. now exists (key, v). }
      congruence.
    + now inversion Hin.
Qed.

Lemma set_column_wf (key : string) (vals : list cell)
    (cols : list (string * list cell)) (n : nat) :
  Forall (fun c => List.length (snd c) = n) cols ->
  List.length vals = n ->
  Forall (fun c => List.length (snd c) = n) (set_column key vals cols).
Proof.
  intros Hc Hv. unfold set_column.
  destruct (existsb (String.eqb key) (map fst cols)).
  - apply Forall_forall. intros c Hin. apply in_map_iff in Hin.
    destruct Hin as [c' [<- Hin]]. rewrite Forall_forall in Hc.
    destruct (String.eqb key (fst c')); [exact Hv|now apply Hc].
  - apply Forall_app. split; [exact Hc|]. now constructor.
Qed.

(** What [df[key] = vals] leaves when it returns. *)
Lemma setitem_returns (df out : DataFrame) (key : string) (vals : list cell) :
  setitem df key vals = Returned out ->
  df_nrows out = List.length vals /\
  has_column out key = true /\
  (forall v, In (key, v) (df_columns out) -> v = vals) /\
  column_names out =
    (if has_column df key then column_names df
     else (column_names df ++ [key])%list) /\
  (df_wf df -> df_wf out) /\
  (df_nrows df <> 0%nat -> List.length vals = df_nrows df).
Proof.
  unfold setitem, has_column, column_names, df_wf.
  destruct (df_nrows df =? 0)%nat eqn:E0;
    destruct (List.length vals =? 0)%nat eqn:Ev; cbn [andb negb];
    try (destruct (List.length vals =? df_nrows df)%nat eqn:El;
           [|discriminate]);
    intros [= <-]; cbn [df_nrows df_columns];
    repeat match goal with
           | H : (_ =? _)%nat = true |- _ => apply Nat.eqb_eq in H
           | H : (_ =? _)%nat = false |- _ => apply Nat.eqb_neq in H
           end.
  all: split; [congruence|]; split; [apply set_column_has|];
    split; [intros v; apply set_column_values|]; split;
    [rewrite set_column_names, ?map_map; cbn [fst]; reflexivity|];
    split; [|congruence || (intros; congruence)].
  all: intros Hwf; apply set_column_wf; try congruence.
  apply Forall_forall. intros c Hin. apply in_map_iff in Hin.
  destruct Hin as [c' [<- _]]. cbn [snd]. apply repeat_length.
Qed.

(** *** The batch block *)

(** A batch block that shows a table of results went through every
    step. *)
Lemma batch_output_some (file : string) (out : DataFrame) (data : string) :
  batch_output (trace (batch_prediction L file)) = Some (out, data) ->
  exists df scaled preds,
    read_csv L file = Returned df /\
    scaler_transform L (FromFrame df) = Returned scaled /\
    model_predict L scaled = Returned preds /\
    setitem df "Predicted FWI" (map CFloat preds) = Returned out /\
    data = to_csv L out.
Proof.
  generalize (batch_cases L file).
  destruct (read_csv L file) as [df|e]; cbn zeta;
    [|intros ->; discriminate].
  destruct (scaler_transform L (FromFrame df)) as [scaled|e] eqn:Hs;
    [|intros ->; discriminate].
  destruct (model_predict L scaled) as [preds|e] eqn:Hm;
    [|intros ->; discriminate].
  destruct (setitem df "Predicted FWI" (map CFloat preds)) as [out'|e] eqn:Ha;
    intros ->; [|discriminate].
  cbn. intros [= <- <-]. now exists df, scaled, preds.
Qed.

(** X10. Whenever the batch block offers a CSV, it is [to_csv] of the table
    shown above the button; that table has one row per prediction and a
    column "Predicted FWI" that holds the predictions of the model for the
    table as read; its column names are those of the upload, with
    "Predicted FWI" added at the end when the upload had no such column. *)
Theorem batch_results_are_consistent
    (file : string) (out : DataFrame) (data : string) :
  batch_output (trace (batch_prediction L file)) = Some (out, data) ->
  data = to_csv L out /\
  In (StDataframe out) (trace (batch_prediction L file)) /\
  exists df scaled preds,
    read_csv L file = Returned df /\
    scaler_transform L (FromFrame df) = Returned scaled /\
    model_predict L scaled = Returned preds /\
    df_nrows out = List.length preds /\
    has_column out "Predicted FWI" = true /\
    (forall vals, In ("Predicted FWI", vals) (df_columns out) ->
                  vals = map CFloat preds) /\
    column_names out =
      (if has_column df "Predicted FWI" then column_names df
       else (column_names df ++ ["Predicted FWI"])%list).
Proof.
  intros Ho.
  destruct (batch_output_some file out data Ho)
    as (df & scaled & preds & Hr & Hs & Hm & Ha & Hd).
  split; [exact Hd|]. split.
  - rewrite (batch_success L file df out scaled preds Hr Hs Hm Ha).
    simpl. tauto.
  - destruct (setitem_returns df out _ _ Ha) as (Hn & Hh & Hv & Hc & _).
    exists df, scaled, preds. rewrite length_map in Hn. tauto.
Qed.

(** X11. When the table read from the file has one value per row in every
    column, so has the table of results; and it has the rows of the upload
    whenever the upload has any. *)
Theorem batch_results_are_rectangular
    (file : string) (df out : DataFrame) (data : string) :
  read_csv L file = Returned df ->
  df_wf df ->
  batch_output (trace (batch_prediction L file)) = Some (out, data) ->
  df_wf out /\
  (df_nrows df <> 0%nat -> df_nrows out = df_nrows df).
Proof.
  intros Hr Hwf Ho.
  destruct (batch_output_some file out data Ho)
    as (df' & scaled & preds & Hr' & _ & _ & Ha & _).
  rewrite Hr in Hr'. injection Hr' as <-.
  destruct (setitem_returns df out _ _ Ha) as (Hn & _ & _ & _ & Hw & Hl).
  split; [now apply Hw|]. intros H0. rewrite Hn. now apply Hl.
Qed.

(** X12. A model that answers another number of predictions than the table
    has rows, the table having some, makes the assignment raise a
    [ValueError]: the block shows it as "Error processing file: ..." and
    no results. *)
Theorem wrong_prediction_count_is_reported
    (file : string) (df : DataFrame) (scaled : ndarray) (preds : list float) :
  read_csv L file = Returned df ->
  scaler_transform L (FromFrame df) = Returned scaled ->
  model_predict L scaled = Returned preds ->
  df_nrows df <> 0%nat ->
  List.length preds <> df_nrows df ->
  exists e,
    isinstance_ValueError e = true /\
    batch_prediction L file =
      ([Subheader "📄 Uploaded Data Preview"; StDataframe (head df);
        ScalerTransform (FromFrame df); ModelPredict scaled;
        StError ("Error processing file: " ++ exn_str e)],
       Returned tt) /\
    batch_output (trace (batch_prediction L file)) = None /\
    filter is_download (trace (batch_prediction L file)) = [].
Proof.
  intros Hr Hs Hm H0 Hl.
  assert (Ha : exists e, isinstance_ValueError e = true /\
                 setitem df "Predicted FWI" (map CFloat preds) = Raised e).
  { unfold setitem. rewrite length_map.
    apply Nat.eqb_neq in H0. apply Nat.eqb_neq in Hl.
    rewrite H0, Hl. cbn [andb]. eexists. split; [|reflexivity]. reflexivity. }
  destruct Ha as (e & He & Ha). exists e. split; [exact He|].
  generalize (batch_cases L file). rewrite Hr. cbn zeta.
  rewrite Hs, Hm, Ha. intros ->. repeat split.
Qed.

(** *** The preview *)

Lemma firstn_short {A} (n : nat) (l : list A) :
  (List.length l <= n)%nat -> firstn n l = l.
Proof. intros H. now apply firstn_all2. Qed.

(** X13. As soon as the file is read, the block shows the preview, the first
    five rows of the table under all its columns, and only then calls the
    scaler; whatever happens next, the preview stays on the page.  A table
    of at most five rows is previewed whole. *)
Theorem preview_is_shown_first (file : string) (df : DataFrame) :
  read_csv L file = Returned df ->
  df_wf df ->
  (exists rest,
      trace (batch_prediction L file) =
        Subheader "📄 Uploaded Data Preview" :: StDataframe (head df)
          :: ScalerTransform (FromFrame df) :: rest) /\
  df_nrows (head df) = Nat.min 5 (df_nrows df) /\
  column_names (head df) = column_names df /\
  df_wf (head df) /\
  ((df_nrows df <= 5)%nat -> head df = df).
Proof.
  intros Hr Hwf. split; [|split; [|split; [|split]]].
  - generalize (batch_cases L file). rewrite Hr. cbn zeta.
    destruct (scaler_transform L (FromFrame df)) as [scaled|e];
      [destruct (model_predict L scaled) as [preds|e];
       [destruct (setitem df "Predicted FWI" (map CFloat preds))|]|];
      intros ->; cbn [trace fst app]; eexists; reflexivity.
  - reflexivity.
  - unfold column_names, head. cbn [df_columns]. rewrite map_map.
    apply map_ext. reflexivity.
  - unfold df_wf, head in *. cbn [df_columns df_nrows].
    apply Forall_forall. intros c Hin. apply in_map_iff in Hin.
    destruct Hin as [c' [<- Hin]]. rewrite Forall_forall in Hwf.
    cbn [snd]. rewrite length_firstn, (Hwf c' Hin). reflexivity.
  - intros H5. unfold head. destruct df as [n cols].
    cbn [df_nrows df_columns] in *. f_equal.
    + now apply Nat.min_r.
    + unfold df_wf in Hwf. cbn [df_nrows df_columns] in Hwf.
      rewrite Forall_forall in Hwf.
      rewrite <- (map_id cols) at 2. apply map_ext_in. intros [k vs] Hin.
      cbn [fst snd]. f_equal. apply firstn_short.
      specialize (Hwf _ Hin). cbn [snd] in Hwf. lia.
Qed.

(** *** The gauge, the page configuration and the history *)

(** X14. The gauge takes the prediction as it is, without clamping it to the
    axis: a prediction below 0 or above 100, a NaN or an infinity is
    behind no band, and every other prediction is behind one. *)
Theorem gauge_band_none_iff (v : float) :
  ind_value (gauge v) = v /\
  (PyFloat.exact_value v = None <-> PyFloat.is_finite v = false) /\
  (band_of (gauge v) = None <->
   match PyFloat.exact_value v with
   | None => True
   | Some q => (q < 0 \/ 100 < q)%Q
   end).
Proof.
  split; [reflexivity|]. split.
  - destruct v as [s|s| |s m e]; cbn [PyFloat.exact_value PyFloat.is_finite];
      try (split; [reflexivity|reflexivity]);
      try (split; discriminate).
    destruct (PyFloat.magnitude m e). split; discriminate.
  - unfold band_of, gauge. cbn [ind_value steps].
    destruct (PyFloat.exact_value v) as [q|]; [|tauto].
    destruct (topmost_gauge_steps q) as (_ & _ & _ & H4 & D).
    destruct D as [D|[D|[D|D]]]; rewrite D in *; cbn.
    + split; [intros _; now apply H4|reflexivity].
    + split; [discriminate|]. intros Hq. apply H4 in Hq. discriminate.
    + split; [discriminate|]. intros Hq. apply H4 in Hq. discriminate.
    + split; [discriminate|]. intros Hq. apply H4 in Hq. discriminate.
Qed.

Lemma single_has_no_page_config (region : Z) (w : inputs) :
  filter is_page_config (trace (single_block L region w)) = [].
Proof.
  unfold single_block. destruct (predict_clicked w); [|reflexivity].
  generalize (single_cases L region w). cbn zeta.
  destruct (scaler_transform L (FromArray (input_data region w)))
    as [scaled|e0];
    [destruct (model_predict L scaled) as [[|v rest]|e0]|]; intros ->;
    unfold single_handler, prediction_display;
    try destruct (isinstance_ValueError e0);
    try destruct (report_clicked w); reflexivity.
Qed.

Lemma batch_has_no_page_config (w : inputs) :
  filter is_page_config (trace (batch_block L w)) = [].
Proof.
  unfold batch_block. destruct (uploaded_file w) as [file|]; [|reflexivity].
  generalize (batch_cases L file).
  destruct (read_csv L file) as [df|e]; cbn zeta; [|now intros ->].
  destruct (scaler_transform L (FromFrame df)) as [scaled|e];
    [|now intros ->].
  destruct (model_predict L scaled) as [preds|e]; [|now intros ->].
  destruct (setitem df "Predicted FWI" (map CFloat preds)); now intros ->.
Qed.

(** Once the artifacts are loaded, the page is configured first, before
    anything is shown, and once. *)
Lemma script_page_config (w : inputs) :
  exists rest,
    trace (script L w) = SetPageConfig "FWI Predictor" "🔥" "wide" :: rest /\
    filter is_page_config rest = [].
Proof.
  destruct (lookup_cases (region_name w)) as [[region Hr]|Hr].
  - generalize (script_cases w region Hr).
    destruct (outcome (single_block L region w)) as [[]|e]; intros ->;
      cbn [trace fst page_top app]; eexists; (split; [reflexivity|]);
      cbn [filter is_page_config]; rewrite ?filter_app,
        single_has_no_page_config, ?batch_has_no_page_config; reflexivity.
  - rewrite (script_lookup_fails w _ Hr). eexists. split; reflexivity.
Qed.

(** X16. With the ten draws of the generator, the history chart has ten points:
    the ten days that end today, in order, each with one draw, in the
    order drawn.  Nothing of the form or of the predictions enters it. *)
Theorem history_chart_points (w : inputs) :
  List.length (uniform_draws w) = 10%nat ->
  exists l,
    trace (history_and_footer w) =
      [Subheader "📊 Historical FWI Trend"; PlotlyChart (Line l);
       Markdown "---" false; Markdown footer true] /\
    List.length (line_points l) = 10%nat /\
    map snd (line_points l) = uniform_draws w /\
    map fst (line_points l) =
      map (fun k => today w - k) [9; 8; 7; 6; 5; 4; 3; 2; 1; 0] /\
    line_x l = "Date" /\ line_y l = "FWI".
Proof.
  intros Hlen. eexists. split; [reflexivity|]. cbn [line_points line_x line_y].
  destruct (uniform_draws w) as [|d0 [|d1 [|d2 [|d3 [|d4 [|d5 [|d6 [|d7
    [|d8 [|d9 [|d10 r]]]]]]]]]]]; try discriminate Hlen.
  repeat split. unfold date_range. cbn [seq map combine fst].
  repeat (f_equal; try lia).
Qed.

(** *** Error messages *)

(** X17. The single-record block shows an error message exactly when the
    scaler or the model raised a [ValueError], and the message is then
    "Input mismatch: " with the text of that exception.  When it shows
    one, it is the only one, and no prediction is shown beside it. *)
Theorem mismatch_message_iff (region : Z) (w : inputs) (msg : string) :
  (In (StError msg) (trace (single_prediction L region w)) <->
   exists e,
     artifact_failure L (FromArray (input_data region w)) e /\
     isinstance_ValueError e = true /\
     msg = "Input mismatch: " ++ exn_str e) /\
  (In (StError msg) (trace (single_prediction L region w)) ->
   filter is_error (trace (single_prediction L region w)) = [StError msg] /\
   filter is_success (trace (single_prediction L region w)) = []).
Proof.
  generalize (single_cases L region w). cbn zeta.
  destruct (scaler_transform L (FromArray (input_data region w)))
    as [scaled|e0] eqn:Hs;
    [destruct (model_predict L scaled) as [[|v rest]|e0] eqn:Hm|]; intros ->;
    unfold single_handler, mismatch_messages, prediction_display;
    try destruct (isinstance_ValueError e0) eqn:Hv;
    cbn [trace fst]; (split; [split|]);
    try (intros Hin; exfalso; destruct (report_clicked w); in_events Hin; fail);
    try (intros (e & [F|s F1 F2] & He & _); exfalso; congruence).
  - intros Hin. in_events Hin.
    match goal with H : StError _ = StError _ |- _ => injection H as <- end.
    exists e0. split; [now apply (model_fails L _ _ scaled)|]. now split.
  - intros (e & [F|s F1 F2] & He & ->); [congruence|].
    assert (e = e0) by congruence. subst e. simpl. tauto.
  - intros Hin. in_events Hin.
    match goal with H : StError _ = StError _ |- _ => injection H as <- end.
    split; reflexivity.
  - intros Hin. in_events Hin.
    match goal with H : StError _ = StError _ |- _ => injection H as <- end.
    exists e0. split; [now apply scaler_fails|]. now split.
  - intros (e & [F|s F1 F2] & He & ->); [|congruence].
    assert (e = e0) by congruence. subst e. simpl. tauto.
  - intros Hin. in_events Hin.
    match goal with H : StError _ = StError _ |- _ => injection H as <- end.
    split; reflexivity.
Qed.

(** X18. The batch block ends in one of two ways and never in both: it shows
    the table of results with its download button and no error message, or
    it shows one error message, "Error processing file: " with the text of
    what was raised, and no results. *)
Theorem batch_results_or_error (file : string) :
  (exists out,
      batch_output (trace (batch_prediction L file)) =
        Some (out, to_csv L out) /\
      filter is_error (trace (batch_prediction L file)) = [] /\
      filter is_download (trace (batch_prediction L file)) =
        [DownloadButton "Download Results as CSV" (to_csv L out)
           "fwi_predictions.csv" "text/csv"]) \/
  (exists e,
      batch_failure L file e /\
      batch_output (trace (batch_prediction L file)) = None /\
      filter is_error (trace (batch_prediction L file)) =
        [StError ("Error processing file: " ++ exn_str e)] /\
      filter is_download (trace (batch_prediction L file)) = []).
Proof.
  generalize (batch_cases L file).
  destruct (read_csv L file) as [df|e] eqn:Hr; cbn zeta.
  2: { intros ->. right. exists e. split; [now apply read_fails|].
       repeat split. }
  destruct (scaler_transform L (FromFrame df)) as [scaled|e] eqn:Hs.
  2: { intros ->. right. exists e. split; [|repeat split].
       apply (artifacts_fail L _ _ df Hr). now apply scaler_fails. }
  destruct (model_predict L scaled) as [preds|e] eqn:Hm.
  2: { intros ->. right. exists e. split; [|repeat split].
       apply (artifacts_fail L _ _ df Hr).
       now apply (model_fails L _ _ scaled). }
  destruct (setitem df "Predicted FWI" (map CFloat preds)) as [out|e] eqn:Ha;
    intros ->.
  - left. exists out. repeat split.
  - right. exists e. split; [|repeat split].
    now apply (assignment_fails L _ _ df scaled preds).
Qed.

End Behaviour.

(** ** The whole file *)

(** A run of the file, by what the two loads give. *)
Lemma program_cases (S : Startup) (w : inputs) :
  match load_model S with
  | Raised e => program S w = ([], Raised e)
  | Returned model =>
      match load_scaler S with
      | Raised e => program S w = ([], Raised e)
      | Returned scaler => program S w = script (loaded S model scaler) w
      end
  end.
Proof.
  unfold program. destruct (load_model S) as [model|e]; [|reflexivity].
  rewrite bind_returned.
  destruct (load_scaler S) as [scaler|e]; [|reflexivity].
  now rewrite bind_returned.
Qed.

(** X5. With a region among the options, a run of the file ends in an
    uncaught exception in four ways only: [ridge.pkl] does not load;
    [scaler.pkl] does not load; Predict was pressed and the scaler or the
    model raised something that is not a [ValueError]; Predict was pressed
    and the model answered an empty array ([IndexError]). *)
Theorem program_raises_iff (S : Startup) (w : inputs) (e : exn) :
  In (region_name w) region_options ->
  (outcome (program S w) = Raised e <->
   load_model S = Raised e \/
   (exists model,
       load_model S = Returned model /\ load_scaler S = Raised e) \/
   (exists model scaler region,
       load_model S = Returned model /\
       load_scaler S = Returned scaler /\
       region_lookup (region_name w) = Returned region /\
       predict_clicked w = true /\
       ((artifact_failure (loaded S model scaler)
           (FromArray (input_data region w)) e /\
         isinstance_ValueError e = false) \/
        (exists scaled,
            scaler (FromArray (input_data region w)) = Returned scaled /\
            model scaled = Returned [] /\
            e = mk_exn IndexError
                  "index 0 is out of bounds for axis 0 with size 0")))).
Proof.
  intros Hin.
  assert (Hr : exists region, region_lookup (region_name w) = Returned region).
  { simpl in Hin. destruct Hin as [<-|[<-|[]]]; eexists; reflexivity. }
  destruct Hr as [region Hr].
  generalize (program_cases S w).
  destruct (load_model S) as [model|e0] eqn:Hm.
  2: { intros ->. cbn [outcome snd]. split.
       - intros [= <-]. now left.
       - intros [H|[(m & H & _)|(m & sc & r & H & _)]]; congruence. }
  destruct (load_scaler S) as [scaler|e0] eqn:Hs.
  2: { intros ->. cbn [outcome snd]. split.
       - intros [= <-]. right. left. now exists model.
       - intros [H|[(m & _ & H)|(m & sc & r & _ & H & _)]]; congruence. }
  intros ->. rewrite script_raises_iff. split.
  - intros [H|(r & Hr' & Hp & H)]; [congruence|].
    right. right. exists model, scaler, r. tauto.
  - intros [H|[(m & _ & H)|(m & sc & r & Hm' & Hs' & Hr' & Hp & H)]];
      try congruence.
    injection Hm' as <-. injection Hs' as <-.
    right. exists r. tauto.
Qed.

(** X15. In every run of the file in which both artifacts load, whether
    or not the run later ends in an exception, the page is configured
    first, before anything is shown, and once.  When a load raises, the
    run ends in that exception and has shown nothing. *)
Theorem program_page_config (S : Startup) (w : inputs) :
  (exists model scaler rest,
      load_model S = Returned model /\
      load_scaler S = Returned scaler /\
      trace (program S w) =
        SetPageConfig "FWI Predictor" "🔥" "wide" :: rest /\
      filter is_page_config rest = []) \/
  (exists e,
      (load_model S = Raised e \/
       exists model,
         load_model S = Returned model /\ load_scaler S = Raised e) /\
      program S w = ([], Raised e)).
Proof.
  generalize (program_cases S w).
  destruct (load_model S) as [model|e] eqn:Hm.
  2: { intros ->. right. exists e. split; [now left|reflexivity]. }
  destruct (load_scaler S) as [scaler|e] eqn:Hs.
  2: { intros ->. right. exists e. split; [|reflexivity].
       right. now exists model. }
  intros ->. left.
  destruct (script_page_config (loaded S model scaler) w) as (rest & Ht & Hf).
  now exists model, scaler, rest.
Qed.

(** ** Further runs on concrete inputs *)

Lemma artifacts_idle_witness :
  filter is_call (trace (script (Demo.libs 9) (Demo.form false false None)))
  = [].
Proof.
  apply (proj2 (artifacts_idle_iff (Demo.libs 9)
                  (Demo.form false false None) 1 eq_refl)).
  split; [reflexivity|exact I].
Defined.

Lemma upload_never_aborts_witness :
  outcome (script Demo.broken_libs
             (Demo.form false false (Some Demo.csv_ok))) = Returned tt.
Proof.
  apply (upload_never_aborts Demo.broken_libs
           (Demo.form false false (Some Demo.csv_ok))).
  - reflexivity.
  - simpl. tauto.
Defined.

Lemma empty_prediction_witness :
  exists e,
    outcome (script Demo.silent_libs (Demo.form true false None)) = Raised e /\
    exn_cls e = IndexError.
Proof.
  destruct (empty_prediction_aborts Demo.silent_libs
              (Demo.form true false None) 1 [Demo.default_row])
    as (e & Ho & Hc & _).
  - reflexivity.
  - reflexivity.
  - reflexivity.
  - reflexivity.
  - now exists e.
Defined.

Lemma report_only_after_prediction_witness :
  predict_clicked (Demo.form true true None) = true /\
  report_clicked (Demo.form true true None) = true.
Proof.
  destruct (report_only_after_prediction (Demo.libs 9)
              (Demo.form true true None)
              (report (Demo.libs 9) (Demo.form true true None)
                 (PyFloat.of_Z 25))
              "FWI_Report.txt" "text/plain")
    as (Hp & Hr & _).
  - vm_compute. tauto.
  - split; [exact Hp|exact Hr].
Defined.

Lemma success_message_witness :
  exists scaled v rest,
    model_predict (Demo.libs 9) scaled = Returned (v :: rest) /\
    "Estimated FWI: **25.00**" =
      "Estimated FWI: **" ++ PyFloat.format_2f v ++ "**".
Proof.
  destruct (success_message_matches_gauge (Demo.libs 9)
              (Demo.form true false None) 1 "Estimated FWI: **25.00**")
    as (scaled & v & rest & _ & Hm & Hmsg & _).
  - vm_compute. tauto.
  - now exists scaled, v, rest.
Defined.

Lemma batch_results_witness :
  has_column Demo.df_clash_out "Predicted FWI" = true /\
  column_names Demo.df_clash_out = column_names Demo.df_clash.
Proof.
  destruct (batch_results_are_consistent (Demo.libs 9) Demo.csv_clash
              Demo.df_clash_out (Demo.writer Demo.df_clash_out))
    as (_ & _ & df & scaled & preds & Hr & _ & _ & _ & Hh & _ & Hc).
  - vm_compute. reflexivity.
  - split; [exact Hh|]. injection Hr as <-. exact Hc.
Defined.

Lemma batch_rectangular_witness :
  df_wf
    {| df_nrows := 1;
       df_columns :=
         (df_columns Demo.df_ok
            ++ [("Predicted FWI", [CFloat (PyFloat.of_Z 25)])])%list |}.
Proof.
  apply (batch_results_are_rectangular (Demo.libs 9) Demo.csv_ok Demo.df_ok
           _ (Demo.writer
                {| df_nrows := 1;
                   df_columns :=
                     (df_columns Demo.df_ok
                        ++ [("Predicted FWI",
                             [CFloat (PyFloat.of_Z 25)])])%list |})).
  - reflexivity.
  - unfold df_wf. simpl. repeat constructor.
  - vm_compute. reflexivity.
Defined.

Lemma wrong_prediction_count_witness :
  batch_output (trace (batch_prediction Demo.silent_libs Demo.csv_ok)) = None.
Proof.
  destruct (wrong_prediction_count_is_reported Demo.silent_libs Demo.csv_ok
              Demo.df_ok [Demo.default_row] [])
    as (e & _ & _ & Hb & _).
  - reflexivity.
  - reflexivity.
  - reflexivity.
  - simpl. lia.
  - simpl. lia.
  - exact Hb.
Defined.

Lemma preview_witness :
  head Demo.df_ok = Demo.df_ok /\
  exists rest,
    trace (batch_prediction (Demo.libs 8) Demo.csv_ok) =
      Subheader "📄 Uploaded Data Preview" :: StDataframe (head Demo.df_ok)
        :: ScalerTransform (FromFrame Demo.df_ok) :: rest.
Proof.
  destruct (preview_is_shown_first (Demo.libs 8) Demo.csv_ok Demo.df_ok)
    as (Ht & _ & _ & _ & Hh).
  - reflexivity.
  - unfold df_wf. simpl. repeat constructor.
  - split; [apply Hh; simpl; lia|exact Ht].
Defined.

Lemma history_chart_witness :
  exists l,
    In (PlotlyChart (Line l))
       (trace (history_and_footer (Demo.form false false None))) /\
    List.length (line_points l) = 10%nat.
Proof.
  destruct (history_chart_points (Demo.form false false None))
    as (l & Ht & Hl & _).
  - reflexivity.
  - exists l. split; [rewrite Ht; simpl; tauto|exact Hl].
Defined.

Lemma program_raises_witness :
  outcome (program Demo.startup_no_scaler (Demo.form true false None)) =
    Raised Demo.no_scaler_file.
Proof.
  apply (proj2 (program_raises_iff Demo.startup_no_scaler
                  (Demo.form true false None) Demo.no_scaler_file
                  (or_introl eq_refl))).
  right. left. exists Demo.model. split; reflexivity.
Defined.
